(** * The upload relay of [src/index.js]: a shallow embedding and its properties

    The repository is one Express handler, [POST /api/proxy-upload].  It
    validates the uploaded files, turns the accepted ones into base64 write
    operations, optionally provisions the target repository, sends one
    batched commit and normalises the remote answer.

    The embedding follows the handler line by line.  JavaScript strings are
    sequences of UTF-16 code units, byte buffers are [list byte], the
    objects the handler builds are records, and the two outbound [fetch]
    calls are the events of a small free monad, so that "which calls are
    made, and in which order" is read off a run of the handler instead of
    being postulated.  Console output is not modelled. *)

From Stdlib Require Import List Bool ZArith NArith Lia.
From Stdlib.Strings Require Import String Ascii Byte.
From Stdlib Require Import DecimalString.
Import ListNotations.

Set Implicit Arguments.

Local Open Scope N_scope.

(* ================================================================== *)
(** ** JavaScript strings *)

(** A JavaScript string is a finite sequence of 16-bit code units. *)
Definition jschar := N.
Definition jsstring := list jschar.

(** String literals of the source are UTF-8 text in this file; [js] turns
    such a literal into its code units.  One-, two- and three-byte
    sequences cover the Basic Multilingual Plane, which is all the
    literals of the handler's request and response values need. *)
Fixpoint utf16_of_utf8 (bs : list N) : jsstring :=
  match bs with
  | [] => []
  | b0 :: r =>
      if b0 <? 128 then b0 :: utf16_of_utf8 r
      else if b0 <? 224 then
        match r with
        | b1 :: r1 =>
            N.lor (N.shiftl (N.land b0 31) 6) (N.land b1 63) :: utf16_of_utf8 r1
        | [] => [65533]
        end
      else
        match r with
        | b1 :: b2 :: r2 =>
            N.lor (N.shiftl (N.land b0 15) 12)
                  (N.lor (N.shiftl (N.land b1 63) 6) (N.land b2 63))
              :: utf16_of_utf8 r2
        | _ => [65533]
        end
  end.

Definition js (s : string) : jsstring :=
  utf16_of_utf8 (map Byte.to_N (list_byte_of_string s)).

Definition jsstring_eqb (s t : jsstring) : bool :=
  if list_eq_dec N.eq_dec s t then true else false.

(** [WhiteSpace] and [LineTerminator] of ECMAScript, the code units that
    [String.prototype.trim] strips. *)
Definition isWhiteSpace (c : jschar) : bool :=
  ((9 <=? c) && (c <=? 13)) || (c =? 32) || (c =? 160) || (c =? 5760)
  || ((8192 <=? c) && (c <=? 8202)) || (c =? 8232) || (c =? 8233)
  || (c =? 8239) || (c =? 8287) || (c =? 12288) || (c =? 65279).

Fixpoint trimStart (s : jsstring) : jsstring :=
  match s with
  | c :: r => if isWhiteSpace c then trimStart r else s
  | [] => []
  end.

Definition trimEnd (s : jsstring) : jsstring := rev (trimStart (rev s)).

Definition trim (s : jsstring) : jsstring := trimEnd (trimStart s).

(** [Number.prototype.toString] on an integer. *)
Definition Number_toString (z : Z) : jsstring :=
  js (NilZero.string_of_int (Z.to_int z)).

(** [Array.prototype.join]. *)
Fixpoint join (sep : jsstring) (l : list jsstring) : jsstring :=
  match l with
  | [] => []
  | [s] => s
  | s :: r => s ++ sep ++ join sep r
  end.

(** Values read from [req.body] and from parsed file parts may be
    [undefined]: [None].  [truthy] is ToBoolean on such a value, and
    [template] is what a template literal [`${v}`] renders. *)
Definition truthy (v : option jsstring) : bool :=
  match v with
  | Some (_ :: _) => true
  | _ => false
  end.

Definition template (v : option jsstring) : jsstring :=
  match v with
  | Some s => s
  | None => js "undefined"
  end.

(* ================================================================== *)
(** ** [Buffer.prototype.toString('base64')] *)

Module Base64.

Definition alphabet : jsstring :=
  js "ABCDEFGHIJKLMNOPQRSTUVWXYZabcdefghijklmnopqrstuvwxyz0123456789+/".

Definition pad : jschar := 61.

(** The character of a sextet. *)
Definition table (n : N) : jschar := nth (N.to_nat n) alphabet pad.

(** The sextet of a character, when it is one of the alphabet. *)
Definition unbase64 (c : jschar) : option N :=
  if (65 <=? c) && (c <=? 90) then Some (c - 65)
  else if (97 <=? c) && (c <=? 122) then Some (c - 71)
  else if (48 <=? c) && (c <=? 57) then Some (c + 4)
  else if c =? 43 then Some 62
  else if c =? 47 then Some 63
  else None.

(** The four sextets of a group of three bytes [a], [b], [c]. *)
Definition sextet0 (a : N) : N := N.shiftr a 2.
Definition sextet1 (a b : N) : N :=
  N.lor (N.shiftl (N.land a 3) 4) (N.shiftr b 4).
Definition sextet2 (b c : N) : N :=
  N.lor (N.shiftl (N.land b 15) 2) (N.shiftr c 6).
Definition sextet3 (c : N) : N := N.land c 63.

(** The encoder, three bytes to four characters, with the one- and
    two-byte tails padded. *)
Fixpoint encode (bs : list byte) : jsstring :=
  match bs with
  | [] => []
  | [x] =>
      let a := Byte.to_N x in
      [table (sextet0 a); table (N.shiftl (N.land a 3) 4); pad; pad]
  | [x; y] =>
      let a := Byte.to_N x in
      let b := Byte.to_N y in
      [table (sextet0 a);
       table (sextet1 a b);
       table (N.shiftl (N.land b 15) 2);
       pad]
  | x :: y :: z :: rest =>
      let a := Byte.to_N x in
      let b := Byte.to_N y in
      let c := Byte.to_N z in
      table (sextet0 a)
        :: table (sextet1 a b)
        :: table (sextet2 b c)
        :: table (sextet3 c)
        :: encode rest
  end.

(** The reference decoder of RFC 4648, section 4.  It is not part of the
    handler: it is the function against which the round trip of the
    encoder is stated. *)
Definition byte_of (n : N) : option byte := Byte.of_N (N.land n 255).

Definition byte0 (s0 s1 : N) : option byte :=
  byte_of (N.lor (N.shiftl s0 2) (N.shiftr s1 4)).
Definition byte1 (s1 s2 : N) : option byte :=
  byte_of (N.lor (N.shiftl (N.land s1 15) 4) (N.shiftr s2 2)).
Definition byte2 (s2 s3 : N) : option byte :=
  byte_of (N.lor (N.shiftl (N.land s2 3) 6) s3).

Definition is_nil {A} (l : list A) : bool :=
  match l with [] => true | _ => false end.

Definition option_bind {A B} (o : option A) (f : A -> option B) : option B :=
  match o with Some a => f a | None => None end.

Local Notation "x <- o ;; k" := (option_bind o (fun x => k))
  (at level 61, o at next level, right associativity).

Fixpoint decode (s : jsstring) : option (list byte) :=
  match s with
  | [] => Some []
  | c0 :: c1 :: c2 :: c3 :: rest =>
      if (c2 =? pad) && (c3 =? pad) && is_nil rest then
        s0 <- unbase64 c0 ;; s1 <- unbase64 c1 ;;
        x <- byte0 s0 s1 ;;
        Some [x]
      else if (c3 =? pad) && is_nil rest then
        s0 <- unbase64 c0 ;; s1 <- unbase64 c1 ;; s2 <- unbase64 c2 ;;
        x <- byte0 s0 s1 ;; y <- byte1 s1 s2 ;;
        Some [x; y]
      else
        s0 <- unbase64 c0 ;; s1 <- unbase64 c1 ;;
        s2 <- unbase64 c2 ;; s3 <- unbase64 c3 ;;
        x <- byte0 s0 s1 ;; y <- byte1 s1 s2 ;; z <- byte2 s2 s3 ;;
        tl <- decode rest ;;
        Some (x :: y :: z :: tl)
  | _ => None
  end.

(** The 256 bytes, in order.  Facts about one or two bytes are settled by
    running the functions on each of them. *)
Definition all_bytes : list byte :=
  flat_map (fun n => match Byte.of_N (N.of_nat n) with
                     | Some x => [x]
                     | None => []
                     end) (seq 0 256).

Definition option_byte_eqb (o : option byte) (x : byte) : bool :=
  match o with Some x' => Byte.eqb x' x | None => false end.

End Base64.

(* ================================================================== *)
(** ** The data of one request *)

(** A file part as [multer] hands it over with memory storage:
    [originalname], [buffer] and [size]. *)
Module File.
Record t : Type := mk {
  originalname : option jsstring;
  buffer : list byte;
  size : Z
}.
End File.

(** The variables bound by the first two statements of the handler: the
    four fields destructured from [req.body], and [files = req.files].
    [proxy_upload] below is the handler from there on; the destructuring
    itself, which throws when [req.body] is undefined, is part of
    [proxy_upload_handler]. *)
Record Request : Type := {
  token : option jsstring;
  username : option jsstring;
  repo : option jsstring;
  spaceId : option jsstring;
  files : option (list File.t)
}.

(** An element of [operations]. *)
Record Operation : Type := {
  operation : jsstring;
  path : jsstring;
  content : jsstring;
  encoding : jsstring
}.

(** An element of [results].  The three object literals the loop pushes
    have different keys; a key that a literal does not have, or whose
    value is [undefined], is [None]. *)
Module Result.
Record t : Type := mk {
  file : option jsstring;
  success : bool;
  error : option jsstring;
  method : option jsstring;
  type : option jsstring;
  size : option Z;
  contentLength : option Z
}.
End Result.

(** An element of [spaceFiles]. *)
Record SpaceFile : Type := {
  sf_path : jsstring;
  sf_content : jsstring;
  sf_encoding : jsstring
}.

(** The three objects handed to [JSON.stringify] as request bodies. *)
Inductive RequestBody : Type :=
| CreateRepoBody (name : option jsstring) (private : bool)
| SpaceCommitBody (files : list SpaceFile) (summary : jsstring)
| RepoCommitBody (operations : list Operation)
                 (commit_title commit_message : jsstring).

Record FetchCall : Type := {
  url : jsstring;
  http_method : jsstring;
  headers : list (jsstring * jsstring);
  body : RequestBody
}.

(** A thrown [Error]: the handler reads [message] and [stack]. *)
Record JsError : Type := {
  err_message : jsstring;
  err_stack : jsstring
}.

(** What [await fetch(...)] gives: a rejection, or a response with its
    [status] and the outcome of [await response.text()]. *)
Record HttpResponse : Type := {
  status : Z;
  text : JsError + jsstring
}.

Inductive FetchOutcome : Type :=
| FetchRejected (e : JsError)
| FetchResolved (r : HttpResponse).

(** [response.ok] of node-fetch: the status is in the range 200-299. *)
Definition ok (r : HttpResponse) : bool :=
  ((200 <=? status r) && (status r <? 300))%Z.

(* ================================================================== *)
(** ** Programs that call [fetch] *)

Inductive Prog (A : Type) : Type :=
| Ret (a : A)
| Fetch (c : FetchCall) (k : FetchOutcome -> Prog A).

Arguments Ret {A} a.
Arguments Fetch {A} c k.

Fixpoint bind {A B} (p : Prog A) (f : A -> Prog B) : Prog B :=
  match p with
  | Ret a => f a
  | Fetch c k => Fetch c (fun o => bind (k o) f)
  end.

Notation "x <- p ;; q" := (bind p (fun x => q))
  (at level 61, p at next level, right associativity).

Definition fetch (c : FetchCall) : Prog FetchOutcome := Fetch c Ret.

(** The remote side: the outcome of the [n]-th outbound call of a
    request, given the call. *)
Definition Network : Type := nat -> FetchCall -> FetchOutcome.

(** Running a program against a network gives the calls made, in order,
    and the result. *)
Fixpoint run {A} (p : Prog A) (net : Network) (n : nat) : list FetchCall * A :=
  match p with
  | Ret a => ([], a)
  | Fetch c k =>
      let (calls, a) := run (k (net n c)) net (S n) in
      (c :: calls, a)
  end.

(* ================================================================== *)
(** ** The file loop (validation and encoding) *)

(** The string held by a value that a preceding truthiness test has shown
    to be one. *)
Definition the (v : option jsstring) : jsstring :=
  match v with Some s => s | None => [] end.

(** [a || b] on values. *)
Definition or_else (a b : option jsstring) : option jsstring :=
  if truthy a then a else b.

Definition too_large : jsstring := js "Arquivo muito grande (>100MB)".
Definition invalid_name : jsstring := js "Nome de arquivo inválido".

(** One iteration of [for (const file of files)], on the two arrays the
    loop pushes to.  The inner [catch] is not modelled: with the memory
    storage of [multer], [buffer] is always a [Buffer] and [originalname],
    when truthy, a string, so nothing inside the [try] throws. *)
Definition loop_body (acc : list Result.t * list Operation) (file : File.t)
  : list Result.t * list Operation :=
  let (results, operations) := acc in
  if (File.size file >? 100 * 1024 * 1024)%Z then
    (results ++
       [Result.mk (File.originalname file) false (Some too_large)
                  None None None None],
     operations)
  else if negb (truthy (File.originalname file))
          || jsstring_eqb (trim (the (File.originalname file))) (js "") then
    (results ++
       [Result.mk (or_else (File.originalname file)
                           (Some (js "arquivo-sem-nome")))
                  false (Some invalid_name) None None None None],
     operations)
  else
    let content := Base64.encode (File.buffer file) in
    let operation :=
      {| operation := js "addOrUpdate";
         path := trim (the (File.originalname file));
         content := content;
         encoding := js "base64" |} in
    (results ++
       [Result.mk (File.originalname file) true None
                  (Some (js "commit")) (Some (js "base64"))
                  (Some (File.size file))
                  (Some (Z.of_nat (List.length content)))],
     operations ++ [operation]).

Definition process_files (files : list File.t)
  : list Result.t * list Operation :=
  fold_left loop_body files ([], []).

(** What one file contributes: its outcome, and its operation if any. *)
Definition file_result (file : File.t) : list Result.t :=
  fst (loop_body ([], []) file).
Definition file_operations (file : File.t) : list Operation :=
  snd (loop_body ([], []) file).

(* ================================================================== *)
(** ** The handler of [POST /api/proxy-upload] *)

Section Handler.

(** [JSON.parse] belongs to the platform.  The handler only stores its
    result under [parsedResponse], so the parsed values and the parser
    are kept abstract; [None] is the [null] left when parsing throws. *)
Variable JSONValue : Type.
Variable JSON_parse : jsstring -> option JSONValue.

(** The object literals given to [res.json], one constructor for each. *)
Inductive ResponseBody : Type :=
| MissingParametersBody (error : jsstring)
| NoValidFilesBody (success : bool) (message : jsstring)
                   (results : list Result.t)
| CommitSuccessBody (success : bool) (message : jsstring)
                    (results : list Result.t) (response : jsstring)
                    (parsedResponse : option JSONValue)
                    (target commitUrl : jsstring) (operationsCount : Z)
| CommitFailureBody (success : bool) (message : jsstring) (status : Z)
                    (results : list Result.t)
                    (target commitUrl : jsstring) (operationsCount : Z)
| InternalErrorBody (success : bool) (message target stack : jsstring).

(** What the caller receives: [res.status(...).json(...)]. *)
Record Response : Type := {
  statusCode : Z;
  json : ResponseBody
}.

Definition defined {A} (v : option A) : bool :=
  match v with Some _ => true | None => false end.

Definition elements {A} (v : option (list A)) : list A :=
  match v with Some l => l | None => [] end.

Definition Array_length {A} (l : list A) : Z := Z.of_nat (List.length l).

(** [spaceId ? 'space' : 'repository'] *)
Definition target_of (req : Request) : jsstring :=
  if truthy (spaceId req) then js "space" else js "repository".

Definition request_headers (req : Request) : list (jsstring * jsstring) :=
  [(js "Authorization", js "Bearer " ++ template (token req));
   (js "Content-Type", js "application/json");
   (js "User-Agent", js "HF-Visual-Editor/1.0")].

Definition upload_title (operations : list Operation) : jsstring :=
  js "Upload de " ++ Number_toString (Array_length operations)
    ++ js " arquivo(s) via Visual Editor".

Definition create_call (req : Request) : FetchCall :=
  {| url := js "https://huggingface.co/api/repos/create";
     http_method := js "POST";
     headers := request_headers req;
     body := CreateRepoBody (repo req) false |}.

(** [try { createResponse = await fetch(create) ... } catch (createErr) {}]:
    each branch only logs. *)
Definition create_repository (req : Request) : Prog unit :=
  createResponse <- fetch (create_call req) ;;
  match createResponse with
  | FetchRejected createErr => Ret tt
  | FetchResolved createResponse =>
      if (status createResponse =? 200)%Z then Ret tt
      else if (status createResponse =? 409)%Z then Ret tt
      else
        match text createResponse with
        | inl createErr => Ret tt
        | inr createError => Ret tt
        end
  end.

Definition space_target (req : Request) (operations : list Operation)
  : jsstring * RequestBody :=
  let commitUrl :=
    js "https://huggingface.co/api/spaces/" ++ template (spaceId req)
      ++ js "/commit/main" in
  let spaceFiles :=
    map (fun op => {| sf_path := path op;
                      sf_content := content op;
                      sf_encoding := js "base64" |}) operations in
  (commitUrl, SpaceCommitBody spaceFiles (upload_title operations)).

Definition repository_target (req : Request) (operations : list Operation)
  : jsstring * RequestBody :=
  let repoId := template (username req) ++ js "/" ++ template (repo req) in
  let commitUrl :=
    js "https://huggingface.co/api/repos/" ++ repoId ++ js "/commit/main" in
  (commitUrl,
   RepoCommitBody operations (upload_title operations)
     (js "Adicionados/atualizados os seguintes arquivos:" ++ [10]
        ++ join [10] (map (fun op => js "- " ++ path op) operations))).

(** [if (spaceId) { ... } else { ... }] *)
Definition resolve_target (req : Request) (operations : list Operation)
  : Prog (jsstring * RequestBody) :=
  if truthy (spaceId req) then
    Ret (space_target req operations)
  else
    _ <- create_repository req ;;
    Ret (repository_target req operations).

Definition commit_call (req : Request) (tgt : jsstring * RequestBody)
  : FetchCall :=
  {| url := fst tgt;
     http_method := js "POST";
     headers := request_headers req;
     body := snd tgt |}.

(** The outer [catch (err)]. *)
Definition internal_error (req : Request) (err : JsError) : Response :=
  {| statusCode := 500;
     json := InternalErrorBody false
               (js "Erro interno: " ++ err_message err)
               (target_of req) (err_stack err) |}.

Definition missing_parameters (req : Request) : bool :=
  negb (truthy (token req)) || negb (truthy (username req))
  || negb (truthy (repo req)) || negb (defined (files req))
  || (Array_length (elements (files req)) =? 0)%Z.

(** From [const responseText = await response.text()] to the two
    [return res...json(...)] of the commit, inside the outer [try]. *)
Definition commit_response (req : Request) (results : list Result.t)
           (operations : list Operation) (commitUrl : jsstring)
           (response : FetchOutcome) : Response :=
  match response with
  | FetchRejected err => internal_error req err
  | FetchResolved response =>
      match text response with
      | inl err => internal_error req err
      | inr responseText =>
          if ok response then
            let successCount :=
              Array_length (filter Result.success results) in
            {| statusCode := 200;
               json := CommitSuccessBody true
                 (Number_toString successCount ++ js "/"
                    ++ Number_toString (Array_length (elements (files req)))
                    ++ js " arquivos enviados com sucesso")
                 results responseText (JSON_parse responseText)
                 (target_of req) commitUrl (Array_length operations) |}
          else
            {| statusCode := status response;
               json := CommitFailureBody false
                 (js "Erro no commit (" ++ Number_toString (status response)
                    ++ js "): " ++ responseText)
                 (status response) results
                 (target_of req) commitUrl (Array_length operations) |}
      end
  end.

Definition proxy_upload (req : Request) : Prog Response :=
  if missing_parameters req then
    Ret {| statusCode := 400;
           json := MissingParametersBody
                     (js "token, username, repo e files são obrigatórios") |}
  else
    let (results, operations) := process_files (elements (files req)) in
    if (Array_length operations =? 0)%Z then
      Ret {| statusCode := 400;
             json := NoValidFilesBody false
                       (js "Nenhum arquivo válido para upload") results |}
    else
      tgt <- resolve_target req operations ;;
      response <- fetch (commit_call req tgt) ;;
      Ret (commit_response req results operations (fst tgt) response).

(** *** Reading a response body by key *)

Definition body_error (b : ResponseBody) : option jsstring :=
  match b with MissingParametersBody e => Some e | _ => None end.

Definition body_success (b : ResponseBody) : option bool :=
  match b with
  | MissingParametersBody _ => None
  | NoValidFilesBody s _ _ => Some s
  | CommitSuccessBody s _ _ _ _ _ _ _ => Some s
  | CommitFailureBody s _ _ _ _ _ _ => Some s
  | InternalErrorBody s _ _ _ => Some s
  end.

Definition body_message (b : ResponseBody) : option jsstring :=
  match b with
  | MissingParametersBody _ => None
  | NoValidFilesBody _ m _ => Some m
  | CommitSuccessBody _ m _ _ _ _ _ _ => Some m
  | CommitFailureBody _ m _ _ _ _ _ => Some m
  | InternalErrorBody _ m _ _ => Some m
  end.

Definition body_results (b : ResponseBody) : option (list Result.t) :=
  match b with
  | NoValidFilesBody _ _ r => Some r
  | CommitSuccessBody _ _ r _ _ _ _ _ => Some r
  | CommitFailureBody _ _ _ r _ _ _ => Some r
  | _ => None
  end.

Definition body_target (b : ResponseBody) : option jsstring :=
  match b with
  | CommitSuccessBody _ _ _ _ _ t _ _ => Some t
  | CommitFailureBody _ _ _ _ t _ _ => Some t
  | InternalErrorBody _ _ t _ => Some t
  | _ => None
  end.

Definition body_operationsCount (b : ResponseBody) : option Z :=
  match b with
  | CommitSuccessBody _ _ _ _ _ _ _ n => Some n
  | CommitFailureBody _ _ _ _ _ _ n => Some n
  | _ => None
  end.

(** *** The handler from its first line *)

(** [req.body] as [multer] builds it for a multipart request: the text
    fields the handler reads, each possibly missing. *)
Record Fields : Type := {
  field_token : option jsstring;
  field_username : option jsstring;
  field_repo : option jsstring;
  field_spaceId : option jsstring
}.

(** The two properties of [req] the handler reads.  [upload.array('file')]
    sets both for a multipart request, [req.files] to the array of the
    parts named [file], which may be empty, and leaves both [undefined]
    for any other request. *)
Record ExpressRequest : Type := {
  req_body : option Fields;
  req_files : option (list File.t)
}.

(** [const { token, username, repo, spaceId } = req.body;] on a defined
    body, and [const files = req.files;]. *)
Definition request_of (b : Fields) (fs : option (list File.t)) : Request :=
  {| token := field_token b;
     username := field_username b;
     repo := field_repo b;
     spaceId := field_spaceId b;
     files := fs |}.

(** What becomes of one call of the handler: an answer is sent, or the
    destructuring of an undefined [req.body] throws a [TypeError].  That
    statement stands before the outer [try], so that nothing catches the
    error and the handler sends nothing. *)
Inductive Handled : Type :=
| Sent (resp : Response)
| Threw.

Definition proxy_upload_handler (r : ExpressRequest) : Prog Handled :=
  match req_body r with
  | None => Ret Threw
  | Some b =>
      resp <- proxy_upload (request_of b (req_files r)) ;;
      Ret (Sent resp)
  end.

(** *** Vocabulary of the statements *)

(** The request gets as far as the dispatcher: the parameter check
    passes and at least one file was accepted. *)
Definition dispatches (req : Request) : Prop :=
  missing_parameters req = false
  /\ snd (process_files (elements (files req))) <> [].

(** The commit call of a dispatched request, its position among the
    outbound calls, and what the network answers to it. *)
Definition the_commit_call (req : Request) : FetchCall :=
  let operations := snd (process_files (elements (files req))) in
  commit_call req (if truthy (spaceId req)
                   then space_target req operations
                   else repository_target req operations).

Definition commit_index (req : Request) : nat :=
  if truthy (spaceId req) then 0%nat else 1%nat.

Definition commit_outcome (req : Request) (net : Network) : FetchOutcome :=
  net (commit_index req) (the_commit_call req).

End Handler.

(* ================================================================== *)
(** ** The two guards of the loop as one test, and further readers *)

(** The file gets past [if (file.size > 100 * 1024 * 1024)] and past
    [if (!file.originalname || file.originalname.trim() === '')]. *)
Definition passes_validation (file : File.t) : bool :=
  negb (File.size file >? 100 * 1024 * 1024)%Z
  && negb (negb (truthy (File.originalname file))
           || jsstring_eqb (trim (the (File.originalname file))) (js "")).

(** The object literal [operation] built for a file that got past both. *)
Definition operation_of (file : File.t) : Operation :=
  {| operation := js "addOrUpdate";
     path := trim (the (File.originalname file));
     content := Base64.encode (File.buffer file);
     encoding := js "base64" |}.

(** [!v] on a value read from [req.body]: [undefined] or the empty
    string. *)
Definition absent_or_empty (v : option jsstring) : Prop :=
  v = None \/ v = Some [].

Definition body_commitUrl {J : Type} (b : ResponseBody J) : option jsstring :=
  match b with
  | CommitSuccessBody _ _ _ _ _ _ u _ => Some u
  | CommitFailureBody _ _ _ _ _ _ u _ => Some u
  | _ => None
  end.

Definition body_stack {J : Type} (b : ResponseBody J) : option jsstring :=
  match b with
  | InternalErrorBody _ _ _ _ st => Some st
  | _ => None
  end.

(** The number of entries of a commit payload: [files.length] of the
    container shape, [operations.length] of the repository shape. *)
Definition payload_length (b : RequestBody) : option Z :=
  match b with
  | CreateRepoBody _ _ => None
  | SpaceCommitBody fs _ => Some (Array_length fs)
  | RepoCommitBody ops _ _ => Some (Array_length ops)
  end.

(** The three headers every outbound call is given. *)
Definition headers_with (tok : jsstring) : list (jsstring * jsstring) :=
  [(js "Authorization", js "Bearer " ++ tok);
   (js "Content-Type", js "application/json");
   (js "User-Agent", js "HF-Visual-Editor/1.0")].

(** A character of base64 text: one of the 64 of the alphabet, or the
    padding. *)
Definition base64_char (c : jschar) : Prop :=
  In c Base64.alphabet \/ c = Base64.pad.

(** No white space at either end. *)
Definition trimmed (s : jsstring) : Prop :=
  (forall c, hd_error s = Some c -> isWhiteSpace c = false)
  /\ (forall c, hd_error (rev s) = Some c -> isWhiteSpace c = false).

(* ================================================================== *)
(** ** Sample files, requests and networks *)

(** The remote bodies used below are not JSON texts; on them [JSON.parse]
    throws and [parsedResponse] stays [null]. *)
Definition not_json : jsstring -> option unit := fun _ => None.

Definition readme : File.t :=
  File.mk (Some (js "readme.txt")) ["h"%byte; "i"%byte] 2.

Definition blank_named : File.t :=
  File.mk (Some (js "   ")) ["h"%byte; "i"%byte] 2.

(** A file of 104,857,601 zero bytes, one byte over the limit, with a
    valid name and with a blank one. *)
Definition oversize : File.t :=
  File.mk (Some (js "big.bin"))
          (repeat "000"%byte (Z.to_nat 104857601)) 104857601.

Definition oversize_blank : File.t :=
  File.mk (Some (js "   "))
          (repeat "000"%byte (Z.to_nat 104857601)) 104857601.

Definition upload (space : option jsstring) (fs : list File.t) : Request :=
  {| token := Some (js "hf_token");
     username := Some (js "alice");
     repo := Some (js "demo");
     spaceId := space;
     files := Some fs |}.

Definition answers (st : Z) (b : string) : FetchOutcome :=
  FetchResolved {| status := st; text := inr (js b) |}.

(** Every call is answered 200. *)
Definition net_ok : Network := fun _ _ => answers 200 "OK".

(** The first call is answered 500 and the second 200. *)
Definition net_500_then_ok : Network :=
  fun n _ => match n with
             | O => answers 500 "Internal Server Error"
             | _ => answers 200 "OK"
             end.

(** The first call is answered 409 and the second 404. *)
Definition net_409_then_404 : Network :=
  fun n _ => match n with
             | O => answers 409 "Conflict"
             | _ => answers 404 "Not Found"
             end.

(** A request whose body is not multipart, as it reaches the handler. *)
Definition not_multipart : ExpressRequest :=
  {| req_body := None; req_files := None |}.

(** Every call is rejected: the remote host cannot be reached. *)
Definition connection_refused : JsError :=
  {| err_message := js "connect ECONNREFUSED";
     err_stack := js "FetchError: connect ECONNREFUSED" |}.

Definition net_down : Network := fun _ _ => FetchRejected connection_refused.

(* ================================================================== *)
(** * Properties *)

(** ** Worked values *)

Example encode_hi : Base64.encode ["h"%byte; "i"%byte] = js "aGk=".
Proof. reflexivity. Qed.

Example decode_hi : Base64.decode (js "aGk=") = Some ["h"%byte; "i"%byte].
Proof. reflexivity. Qed.

Example trim_spaces : trim (js "  readme.txt ") = js "readme.txt".
Proof. reflexivity. Qed.

Example js_latin1 : js "são" = [115; 227; 111].
Proof. reflexivity. Qed.

Example toString_status : Number_toString 404 = js "404".
Proof. reflexivity. Qed.

(* ================================================================== *)
(** ** Base64: decoding what the encoder produced *)

Module Base64Facts.
Import Base64.

Lemma all_bytes_complete (x : byte) : In x all_bytes.
Proof.
  unfold all_bytes. apply in_flat_map.
  exists (N.to_nat (Byte.to_N x)). split.
  - apply in_seq. pose proof (Byte.to_N_bounded x). lia.
  - rewrite N2Nat.id, Byte.of_to_N. now left.
Qed.

Lemma forall_byte (P : byte -> bool) :
  forallb P all_bytes = true -> forall x, P x = true.
Proof.
  intros H x. rewrite forallb_forall in H. apply H, all_bytes_complete.
Qed.

Lemma forall_byte2 (P : byte -> byte -> bool) :
  forallb (fun x => forallb (P x) all_bytes) all_bytes = true ->
  forall x y, P x y = true.
Proof.
  intros H x y.
  apply (forall_byte (P x)), (forall_byte _ H).
Qed.

Lemma option_byte_eqb_eq o x : option_byte_eqb o x = true -> o = Some x.
Proof.
  destruct o as [x'|]; simpl; [|discriminate].
  intros H. apply Byte.byte_dec_bl in H. now subst.
Qed.

Lemma table_unbase64 (s : N) :
  s < 64 -> unbase64 (table s) = Some s /\ (table s =? pad) = false.
Proof.
  intros H.
  assert (In (N.to_nat s) (seq 0 64)) as Hin by (apply in_seq; lia).
  rewrite <- (N2Nat.id s).
  revert Hin. generalize (N.to_nat s). intros n Hin.
  assert (forallb (fun n => match unbase64 (table (N.of_nat n)) with
                            | Some s' => (s' =? N.of_nat n)
                                         && negb (table (N.of_nat n) =? pad)
                            | None => false
                            end) (seq 0 64) = true) as Hall
      by (vm_compute; reflexivity).
  rewrite forallb_forall in Hall. specialize (Hall n Hin).
  destruct (unbase64 (table (N.of_nat n))) as [s'|]; [|discriminate].
  apply andb_prop in Hall. destruct Hall as [E1 E2].
  apply N.eqb_eq in E1. subst s'.
  split; [reflexivity|]. now apply negb_true_iff.
Qed.

Lemma sextets_bounded (x y : byte) :
  sextet0 (to_N x) < 64 /\ sextet1 (to_N x) (to_N y) < 64
  /\ sextet2 (to_N x) (to_N y) < 64 /\ sextet3 (to_N x) < 64.
Proof.
  assert ((sextet0 (to_N x) <? 64) && (sextet1 (to_N x) (to_N y) <? 64)
          && (sextet2 (to_N x) (to_N y) <? 64)
          && (sextet3 (to_N x) <? 64) = true) as H.
  { revert x y. apply forall_byte2. vm_compute. reflexivity. }
  repeat (apply andb_prop in H; destruct H as [H ?]).
  repeat split; now apply N.ltb_lt.
Qed.

(** The first byte comes back from the first two sextets. *)
Lemma byte0_sextets (x y : byte) :
  byte0 (sextet0 (to_N x)) (sextet1 (to_N x) (to_N y)) = Some x.
Proof.
  apply option_byte_eqb_eq. revert x y.
  apply (forall_byte2
           (fun x y => option_byte_eqb
                         (byte0 (sextet0 (to_N x))
                                (sextet1 (to_N x) (to_N y))) x)).
  vm_compute. reflexivity.
Qed.

(** The low four bits of the second sextet and the high four of the
    third are the two halves of the second byte. *)
Lemma sextet1_low (x y : byte) :
  N.land (sextet1 (to_N x) (to_N y)) 15 = N.shiftr (to_N y) 4.
Proof.
  apply N.eqb_eq. revert x y.
  apply (forall_byte2
           (fun x y => N.land (sextet1 (to_N x) (to_N y)) 15
                       =? N.shiftr (to_N y) 4)).
  vm_compute. reflexivity.
Qed.

Lemma sextet2_high (y z : byte) :
  N.shiftr (sextet2 (to_N y) (to_N z)) 2 = N.land (to_N y) 15.
Proof.
  apply N.eqb_eq. revert y z.
  apply (forall_byte2
           (fun y z => N.shiftr (sextet2 (to_N y) (to_N z)) 2
                       =? N.land (to_N y) 15)).
  vm_compute. reflexivity.
Qed.

Lemma sextet2_low (y z : byte) :
  N.land (sextet2 (to_N y) (to_N z)) 3 = N.shiftr (to_N z) 6.
Proof.
  apply N.eqb_eq. revert y z.
  apply (forall_byte2
           (fun y z => N.land (sextet2 (to_N y) (to_N z)) 3
                       =? N.shiftr (to_N z) 6)).
  vm_compute. reflexivity.
Qed.

Lemma halves_byte (y : byte) :
  byte_of (N.lor (N.shiftl (N.shiftr (to_N y) 4) 4) (N.land (to_N y) 15))
  = Some y.
Proof.
  apply option_byte_eqb_eq. revert y.
  apply (forall_byte
           (fun y => option_byte_eqb
                       (byte_of (N.lor (N.shiftl (N.shiftr (to_N y) 4) 4)
                                       (N.land (to_N y) 15))) y)).
  vm_compute. reflexivity.
Qed.

Lemma quarter_byte (z : byte) :
  byte_of (N.lor (N.shiftl (N.shiftr (to_N z) 6) 6) (sextet3 (to_N z)))
  = Some z.
Proof.
  apply option_byte_eqb_eq. revert z.
  apply (forall_byte
           (fun z => option_byte_eqb
                       (byte_of (N.lor (N.shiftl (N.shiftr (to_N z) 6) 6)
                                       (sextet3 (to_N z)))) z)).
  vm_compute. reflexivity.
Qed.

Lemma byte1_sextets (x y z : byte) :
  byte1 (sextet1 (to_N x) (to_N y)) (sextet2 (to_N y) (to_N z)) = Some y.
Proof.
  unfold byte1. rewrite sextet1_low, sextet2_high. apply halves_byte.
Qed.

Lemma byte2_sextets (y z : byte) :
  byte2 (sextet2 (to_N y) (to_N z)) (sextet3 (to_N z)) = Some z.
Proof.
  unfold byte2. rewrite sextet2_low. apply quarter_byte.
Qed.

(** The padded tails, one and two bytes long. *)
Lemma decode_encode_1 (x : byte) : decode (encode [x]) = Some [x].
Proof.
  assert (match decode (encode [x]) with
          | Some [x'] => Byte.eqb x' x
          | _ => false
          end = true) as H.
  { revert x. apply forall_byte. vm_compute. reflexivity. }
  destruct (decode (encode [x])) as [[|x' [|? ?]]|]; try discriminate.
  apply Byte.byte_dec_bl in H. now subst.
Qed.

Lemma decode_encode_2 (x y : byte) : decode (encode [x; y]) = Some [x; y].
Proof.
  assert (match decode (encode [x; y]) with
          | Some [x'; y'] => Byte.eqb x' x && Byte.eqb y' y
          | _ => false
          end = true) as H.
  { revert x y. apply forall_byte2. vm_compute. reflexivity. }
  destruct (decode (encode [x; y])) as [[|x' [|y' [|? ?]]]|];
    try discriminate.
  apply andb_prop in H. destruct H as [H1 H2].
  apply Byte.byte_dec_bl in H1, H2. now subst.
Qed.

(** A full group in front of an already decodable rest. *)
Lemma decode_encode_3 (x y z : byte) (rest : list byte) :
  decode (encode rest) = Some rest ->
  decode (encode (x :: y :: z :: rest)) = Some (x :: y :: z :: rest).
Proof.
  intros IH.
  change (encode (x :: y :: z :: rest))
    with (table (sextet0 (to_N x))
            :: table (sextet1 (to_N x) (to_N y))
            :: table (sextet2 (to_N y) (to_N z))
            :: table (sextet3 (to_N z))
            :: encode rest).
  destruct (sextets_bounded x y) as (B0 & B1 & _ & _).
  destruct (sextets_bounded y z) as (_ & _ & B2 & _).
  destruct (sextets_bounded z z) as (_ & _ & _ & B3).
  destruct (table_unbase64 B0) as [U0 _].
  destruct (table_unbase64 B1) as [U1 _].
  destruct (table_unbase64 B2) as [U2 P2].
  destruct (table_unbase64 B3) as [U3 P3].
  cbn [decode]. rewrite P2, P3. cbn [andb].
  rewrite U0, U1, U2, U3. cbn [option_bind].
  rewrite byte0_sextets, byte1_sextets, byte2_sextets. cbn [option_bind].
  rewrite IH. reflexivity.
Qed.

Lemma list_ind3 {A} (P : list A -> Prop) :
  P [] -> (forall x, P [x]) -> (forall x y, P [x; y]) ->
  (forall x y z l, P l -> P (x :: y :: z :: l)) ->
  forall l, P l.
Proof.
  intros H0 H1 H2 H3. fix IH 1.
  intros [|x [|y [|z l]]];
    [apply H0 | apply H1 | apply H2 | apply H3, IH].
Qed.

End Base64Facts.

(** C8.  For every byte sequence (the empty one, a single byte, and any
    sequence over all 256 byte values included), decoding the base64 text
    that the encoder produces gives back exactly the original bytes. *)
Theorem base64_round_trip (bs : list byte) :
  Base64.decode (Base64.encode bs) = Some bs.
Proof.
  induction bs as [| x | x y | x y z rest IH] using Base64Facts.list_ind3.
  - reflexivity.
  - apply Base64Facts.decode_encode_1.
  - apply Base64Facts.decode_encode_2.
  - now apply Base64Facts.decode_encode_3.
Qed.

(* ================================================================== *)
(** ** The file loop *)

Lemma jsstring_eqb_eq (s t : jsstring) : jsstring_eqb s t = true <-> s = t.
Proof.
  unfold jsstring_eqb. destruct (list_eq_dec N.eq_dec s t); split;
    intros; congruence.
Qed.

Lemma size_limit_value : (100 * 1024 * 1024 = 104857600)%Z.
Proof. reflexivity. Qed.

Lemma reasons_differ : too_large <> invalid_name.
Proof. intros H. vm_compute in H. discriminate. Qed.

(** The verdict on a file, by the two guards of the loop, in their order. *)
Lemma file_oversize (f : File.t) :
  (File.size f > 104857600)%Z ->
  loop_body ([], []) f =
  ([Result.mk (File.originalname f) false (Some too_large)
              None None None None], []).
Proof.
  intros H. unfold loop_body. rewrite size_limit_value.
  assert ((File.size f >? 104857600)%Z = true) as -> by (apply Z.gtb_lt; lia).
  reflexivity.
Qed.

Lemma file_blank_name (f : File.t) :
  (File.size f <= 104857600)%Z ->
  File.originalname f = None \/ trim (the (File.originalname f)) = [] ->
  loop_body ([], []) f =
  ([Result.mk (or_else (File.originalname f) (Some (js "arquivo-sem-nome")))
              false (Some invalid_name) None None None None], []).
Proof.
  intros Hs Hn. unfold loop_body. rewrite size_limit_value.
  assert ((File.size f >? 104857600)%Z = false) as ->
      by (rewrite Z.gtb_ltb; apply Z.ltb_ge; lia).
  assert (negb (truthy (File.originalname f))
          || jsstring_eqb (trim (the (File.originalname f))) (js "") = true)
    as ->.
  { destruct Hn as [-> | Hn]; [reflexivity|].
    apply orb_true_iff. right. now apply jsstring_eqb_eq. }
  reflexivity.
Qed.

Lemma file_accepted (f : File.t) (s : jsstring) :
  (File.size f <= 104857600)%Z ->
  File.originalname f = Some s -> trim s <> [] ->
  loop_body ([], []) f =
  ([Result.mk (Some s) true None (Some (js "commit")) (Some (js "base64"))
              (Some (File.size f))
              (Some (Z.of_nat (List.length (Base64.encode (File.buffer f)))))],
   [{| operation := js "addOrUpdate";
       path := trim s;
       content := Base64.encode (File.buffer f);
       encoding := js "base64" |}]).
Proof.
  intros Hs Hn Ht. unfold loop_body. rewrite size_limit_value, Hn.
  assert ((File.size f >? 104857600)%Z = false) as ->
      by (rewrite Z.gtb_ltb; apply Z.ltb_ge; lia).
  assert (negb (truthy (Some s)) || jsstring_eqb (trim (the (Some s))) (js "")
          = false) as ->.
  { apply orb_false_iff. split.
    - destruct s; [now contradict Ht | reflexivity].
    - destruct (jsstring_eqb (trim (the (Some s))) (js "")) eqn:E; auto.
      apply jsstring_eqb_eq in E. now contradict Ht. }
  reflexivity.
Qed.

(** Every file falls under exactly one of the three verdicts. *)
Lemma file_verdict (f : File.t) :
  (File.size f > 104857600)%Z
  \/ ((File.size f <= 104857600)%Z
      /\ (File.originalname f = None \/ trim (the (File.originalname f)) = []))
  \/ ((File.size f <= 104857600)%Z
      /\ exists s, File.originalname f = Some s /\ trim s <> []).
Proof.
  destruct (Z_gt_le_dec (File.size f) 104857600) as [H|H]; [now left|].
  right. destruct (File.originalname f) as [s|] eqn:E.
  - destruct (list_eq_dec N.eq_dec (trim s) []) as [Ht|Ht].
    + left. split; [assumption|]. now right.
    + right. split; [assumption|]. now exists s.
  - left. split; [assumption|]. now left.
Qed.

(** One push to [results] per file, and at most one to [operations]. *)
Lemma loop_body_acc (results : list Result.t) (operations : list Operation)
      (f : File.t) :
  loop_body (results, operations) f =
  (results ++ file_result f, operations ++ file_operations f).
Proof.
  unfold file_result, file_operations, loop_body.
  destruct (File.size f >? 100 * 1024 * 1024)%Z;
    [|destruct (negb (truthy (File.originalname f))
                || jsstring_eqb (trim (the (File.originalname f))) (js ""))];
    cbn [fst snd app]; now rewrite ?app_nil_r.
Qed.

Lemma fold_loop_body (fs : list File.t) (results : list Result.t)
      (operations : list Operation) :
  fold_left loop_body fs (results, operations) =
  (results ++ flat_map file_result fs,
   operations ++ flat_map file_operations fs).
Proof.
  revert results operations.
  induction fs as [|f fs IH]; intros results operations; cbn [fold_left flat_map].
  - now rewrite !app_nil_r.
  - rewrite loop_body_acc, IH, <- !app_assoc. reflexivity.
Qed.

Lemma process_files_flat (fs : list File.t) :
  process_files fs = (flat_map file_result fs, flat_map file_operations fs).
Proof. apply fold_loop_body. Qed.

Lemma file_result_singleton (f : File.t) :
  exists r, file_result f = [r]
            /\ List.length (file_operations f)
               = List.length (filter Result.success [r]).
Proof.
  unfold file_result, file_operations.
  destruct (file_verdict f) as [H | [[H1 H2] | [H1 (s & H2 & H3)]]].
  - rewrite file_oversize by assumption. eexists. split; reflexivity.
  - rewrite file_blank_name by assumption. eexists. split; reflexivity.
  - rewrite (file_accepted f H1 H2 H3). eexists. split; reflexivity.
Qed.

Lemma results_in_order (fs : list File.t) :
  Forall2 (fun f r => file_result f = [r]) fs (flat_map file_result fs).
Proof.
  induction fs as [|f fs IH]; cbn [flat_map]; [constructor|].
  destruct (file_result_singleton f) as (r & E & _). rewrite E.
  now constructor.
Qed.

Lemma operations_count (fs : list File.t) :
  List.length (flat_map file_operations fs)
  = List.length (filter Result.success (flat_map file_result fs)).
Proof.
  induction fs as [|f fs IH]; cbn [flat_map]; [reflexivity|].
  destruct (file_result_singleton f) as (r & E & L).
  rewrite filter_app, !length_app, IH, E, L. reflexivity.
Qed.

Lemma results_length (fs : list File.t) :
  List.length (flat_map file_result fs) = List.length fs.
Proof.
  symmetry. apply (Forall2_length (results_in_order fs)).
Qed.

Lemma operations_skip (pre post : list File.t) (f : File.t) :
  file_operations f = [] ->
  snd (process_files (pre ++ f :: post)) = snd (process_files (pre ++ post)).
Proof.
  intros E. rewrite !process_files_flat. cbn [snd].
  rewrite !flat_map_app. cbn [flat_map]. now rewrite E.
Qed.

Lemma operations_of_member (fs : list File.t) (g : File.t) (op : Operation) :
  In g fs -> file_operations g = [op] -> In op (snd (process_files fs)).
Proof.
  intros Hin E. rewrite process_files_flat. cbn [snd].
  apply in_flat_map. exists g. split; [assumption|]. rewrite E. now left.
Qed.

(** C1.  A file is rejected as too large exactly when its size is
    strictly greater than 104,857,600 bytes.  At 104,857,600 it is not
    rejected for its size, and it is accepted, with a write operation,
    once its name is valid; from 104,857,601 on its outcome has
    [success = false] with the oversize reason and it contributes no write
    operation, while the valid files around it in the same batch still
    contribute theirs. *)
Theorem size_limit_exact (pre post : list File.t) (f : File.t) :
  exists r,
    nth_error (fst (process_files (pre ++ f :: post))) (List.length pre)
    = Some r
    /\ file_result f = [r]
    /\ (Result.error r = Some too_large <-> (File.size f > 104857600)%Z)
    /\ ((104857601 <= File.size f)%Z ->
        Result.success r = false
        /\ Result.error r = Some too_large
        /\ file_operations f = []
        /\ snd (process_files (pre ++ f :: post))
           = snd (process_files (pre ++ post)))
    /\ (File.size f = 104857600%Z ->
        Result.error r <> Some too_large
        /\ forall s, File.originalname f = Some s -> trim s <> [] ->
             Result.success r = true
             /\ file_operations f
                = [{| operation := js "addOrUpdate";
                      path := trim s;
                      content := Base64.encode (File.buffer f);
                      encoding := js "base64" |}])
    /\ (forall g s,
          In g (pre ++ post) -> (File.size g <= 104857600)%Z ->
          File.originalname g = Some s -> trim s <> [] ->
          In {| operation := js "addOrUpdate";
                path := trim s;
                content := Base64.encode (File.buffer g);
                encoding := js "base64" |}
             (snd (process_files (pre ++ f :: post)))).
Proof.
  assert (forall r, file_result f = [r] ->
            nth_error (fst (process_files (pre ++ f :: post)))
                      (List.length pre) = Some r) as Hnth.
  { intros r E. rewrite process_files_flat. cbn [fst].
    rewrite flat_map_app. cbn [flat_map]. rewrite E.
    rewrite nth_error_app2 by (rewrite results_length; lia).
    rewrite results_length, Nat.sub_diag. reflexivity. }
  assert (forall g s,
            In g (pre ++ post) -> (File.size g <= 104857600)%Z ->
            File.originalname g = Some s -> trim s <> [] ->
            In {| operation := js "addOrUpdate";
                  path := trim s;
                  content := Base64.encode (File.buffer g);
                  encoding := js "base64" |}
               (snd (process_files (pre ++ f :: post)))) as Hsib.
  { intros g s Hin Hs Hn Ht.
    apply operations_of_member with (g := g).
    - apply in_app_iff. apply in_app_iff in Hin.
      destruct Hin; [now left | right; now right].
    - unfold file_operations. now rewrite (file_accepted g Hs Hn Ht). }
  unfold file_result, file_operations in *.
  destruct (file_verdict f) as [H | [[H1 H2] | [H1 (s & H2 & H3)]]].
  - rewrite file_oversize in * by assumption. cbn [fst snd] in *.
    eexists. split; [now apply Hnth|]. split; [reflexivity|].
    cbn [Result.error Result.success].
    split; [tauto|]. split; [|split; [lia | exact Hsib]].
    intros _. repeat split.
    apply operations_skip. unfold file_operations.
    now rewrite file_oversize.
  - rewrite file_blank_name in * by assumption. cbn [fst snd] in *.
    eexists. split; [now apply Hnth|]. split; [reflexivity|].
    cbn [Result.error Result.success].
    assert (Some invalid_name <> Some too_large) as Hd
        by (intros E; vm_compute in E; discriminate).
    split; [split; [intros E; now contradict E | lia]|].
    split; [lia|]. split; [|exact Hsib].
    intros _. split; [exact Hd|]. intros s Hs Ht.
    destruct H2 as [H2|H2]; rewrite Hs in H2;
      [discriminate | now contradict Ht].
  - rewrite (file_accepted f H1 H2 H3) in *. cbn [fst snd] in *.
    eexists. split; [now apply Hnth|]. split; [reflexivity|].
    cbn [Result.error Result.success].
    split; [split; [discriminate | lia]|].
    split; [lia|]. split; [|exact Hsib].
    intros _. split; [discriminate|]. intros s' Hs' _.
    rewrite H2 in Hs'. injection Hs' as <-. split; reflexivity.
Qed.

(** C7 (as amended).  A file that passes the size guard and whose name is
    absent, or trims to the empty string, is rejected with the
    invalid-name reason whatever its bytes are, and contributes no
    operation.  For every accepted file the operation has the trimmed file
    name as [path], "base64" as [encoding] and the base64 text of the raw
    bytes as [content]. *)
Theorem blank_name_rejected_and_operation_shape (f : File.t) :
  ((File.size f <= 104857600)%Z ->
   File.originalname f = None \/ trim (the (File.originalname f)) = [] ->
   exists r, file_result f = [r]
             /\ Result.success r = false
             /\ Result.error r = Some invalid_name
             /\ file_operations f = [])
  /\ (forall r, file_result f = [r] -> Result.success r = true ->
      exists s, File.originalname f = Some s
                /\ file_operations f
                   = [{| operation := js "addOrUpdate";
                         path := trim s;
                         content := Base64.encode (File.buffer f);
                         encoding := js "base64" |}]).
Proof.
  unfold file_result, file_operations. split.
  - intros Hs Hn. rewrite file_blank_name by assumption.
    eexists. repeat split.
  - intros r E Hr.
    destruct (file_verdict f) as [H | [[H1 H2] | [H1 (s & H2 & H3)]]].
    + rewrite file_oversize in E by assumption.
      injection E as <-. discriminate.
    + rewrite file_blank_name in E by assumption.
      injection E as <-. discriminate.
    + exists s. split; [assumption|].
      now rewrite (file_accepted f H1 H2 H3).
Qed.

(* ================================================================== *)
(** ** The handler: which calls are made and what is answered *)

Section HandlerFacts.

Variable JSONValue : Type.
Variable JSON_parse : jsstring -> option JSONValue.

Lemma Array_length_zero {A} (l : list A) :
  (Array_length l =? 0)%Z = true <-> l = [].
Proof.
  unfold Array_length. rewrite Z.eqb_eq. destruct l; cbn [List.length].
  - tauto.
  - split; [lia | discriminate].
Qed.

Lemma Array_length_nonzero {A} (l : list A) :
  l <> [] -> (Array_length l =? 0)%Z = false.
Proof.
  intros H. destruct (Array_length l =? 0)%Z eqn:E; [|reflexivity].
  apply Array_length_zero in E. contradiction.
Qed.

(** The parameter check fails: one answer, no call. *)
Lemma run_missing_parameters (req : Request) (net : Network) (n : nat) :
  missing_parameters req = true ->
  run (proxy_upload JSON_parse req) net n =
  ([], {| statusCode := 400;
          json := MissingParametersBody JSONValue
                    (js "token, username, repo e files são obrigatórios") |}).
Proof.
  intros H. unfold proxy_upload. rewrite H. reflexivity.
Qed.

(** No operation was built: one answer, no call. *)
Lemma run_no_valid_files (req : Request) (net : Network) (n : nat) :
  missing_parameters req = false ->
  snd (process_files (elements (files req))) = [] ->
  run (proxy_upload JSON_parse req) net n =
  ([], {| statusCode := 400;
          json := NoValidFilesBody JSONValue false
                    (js "Nenhum arquivo válido para upload")
                    (fst (process_files (elements (files req)))) |}).
Proof.
  intros H E. unfold proxy_upload. rewrite H.
  destruct (process_files (elements (files req))) as [results operations].
  cbn [fst snd] in *. subst operations. reflexivity.
Qed.

(** Running a sequence: the calls of the first part, then those of the
    second, numbered after them. *)
Lemma run_bind {A B} (p : Prog A) (f : A -> Prog B) (net : Network) (n : nat) :
  run (bind p f) net n =
  (fst (run p net n)
     ++ fst (run (f (snd (run p net n))) net
                 (n + List.length (fst (run p net n)))),
   snd (run (f (snd (run p net n))) net
            (n + List.length (fst (run p net n))))).
Proof.
  revert n. induction p as [a | c k IH]; intros n; cbn [bind run].
  - cbn [fst snd List.length app]. rewrite Nat.add_0_r.
    now destruct (run (f a) net n).
  - rewrite IH. destruct (run (k (net n c)) net (S n)) as [calls a].
    cbn [fst snd List.length app]. now rewrite Nat.add_succ_r.
Qed.

(** The provisioning step makes its one call and goes on, whatever the
    answer: status 200, status 409, any other status with or without a
    readable body, or a rejected call. *)
Lemma run_create_repository (req : Request) (net : Network) (n : nat) :
  run (create_repository req) net n = ([create_call req], tt).
Proof.
  unfold create_repository, fetch. cbn [bind run].
  destruct (net n (create_call req)) as [e | r]; cbn [bind run].
  - reflexivity.
  - destruct (status r =? 200)%Z; [|destruct (status r =? 409)%Z;
                                     [|destruct (text r)]];
      reflexivity.
Qed.

Lemma run_space_mode (req : Request) (net : Network) :
  dispatches req -> truthy (spaceId req) = true ->
  let results := fst (process_files (elements (files req))) in
  let operations := snd (process_files (elements (files req))) in
  let call := commit_call req (space_target req operations) in
  run (proxy_upload JSON_parse req) net 0 =
  ([call],
   commit_response JSON_parse req results operations
                   (fst (space_target req operations)) (net 0%nat call)).
Proof.
  intros [Hm Ho] Hs. unfold proxy_upload. rewrite Hm.
  destruct (process_files (elements (files req))) as [results operations].
  cbn [fst snd] in *. rewrite (Array_length_nonzero Ho).
  unfold resolve_target. rewrite Hs. reflexivity.
Qed.

Lemma run_repository_mode (req : Request) (net : Network) :
  dispatches req -> truthy (spaceId req) = false ->
  let results := fst (process_files (elements (files req))) in
  let operations := snd (process_files (elements (files req))) in
  let call := commit_call req (repository_target req operations) in
  run (proxy_upload JSON_parse req) net 0 =
  ([create_call req; call],
   commit_response JSON_parse req results operations
                   (fst (repository_target req operations))
                   (net 1%nat call)).
Proof.
  intros [Hm Ho] Hs. unfold proxy_upload. rewrite Hm.
  destruct (process_files (elements (files req))) as [results operations].
  cbn [fst snd] in *. rewrite (Array_length_nonzero Ho).
  unfold resolve_target. rewrite Hs.
  do 2 rewrite run_bind. rewrite run_create_repository.
  cbn [fst snd List.length app Nat.add fetch run bind]. reflexivity.
Qed.

(** In both modes the answer is the normalised outcome of the commit
    call, which is the last call made. *)
Lemma run_dispatched (req : Request) (net : Network) :
  dispatches req ->
  nth_error (fst (run (proxy_upload JSON_parse req) net 0))
            (commit_index req) = Some (the_commit_call req)
  /\ List.length (fst (run (proxy_upload JSON_parse req) net 0))
     = S (commit_index req)
  /\ snd (run (proxy_upload JSON_parse req) net 0) =
     commit_response JSON_parse req
       (fst (process_files (elements (files req))))
       (snd (process_files (elements (files req))))
       (url (the_commit_call req)) (commit_outcome req net).
Proof.
  intros Hd. unfold commit_outcome, the_commit_call, commit_index.
  destruct (truthy (spaceId req)) eqn:Hs.
  - rewrite (run_space_mode net Hd Hs).
    cbn [fst snd nth_error List.length url commit_call]. repeat split.
  - rewrite (run_repository_mode net Hd Hs).
    cbn [fst snd nth_error List.length url commit_call]. repeat split.
Qed.

Lemma dispatches_fields (req : Request) :
  dispatches req ->
  exists tok owner name fs,
    token req = Some tok /\ username req = Some owner
    /\ repo req = Some name /\ files req = Some fs
    /\ tok <> [] /\ owner <> [] /\ name <> [] /\ fs <> [].
Proof.
  intros [Hm _]. unfold missing_parameters in Hm.
  repeat (apply orb_false_iff in Hm; destruct Hm as [Hm ?]).
  destruct (token req) as [[|? ?]|]; try discriminate.
  destruct (username req) as [[|? ?]|]; try discriminate.
  destruct (repo req) as [[|? ?]|]; try discriminate.
  destruct (files req) as [[|? ?]|]; try discriminate.
  do 4 eexists. repeat split; discriminate.
Qed.

(** What every answer to a dispatched request carries. *)
Lemma commit_response_fields (req : Request) (results : list Result.t)
      (operations : list Operation) (commitUrl : jsstring)
      (o : FetchOutcome) :
  let resp := commit_response JSON_parse req results operations commitUrl o in
  body_target (json resp) = Some (target_of req)
  /\ (forall rs, body_results (json resp) = Some rs -> rs = results)
  /\ (forall n, body_operationsCount (json resp) = Some n ->
                n = Array_length operations).
Proof.
  unfold commit_response.
  destruct o as [e | r]; [|destruct (text r); [|destruct (ok r)]];
    cbn [json internal_error body_target body_results body_operationsCount];
    repeat split; intros; congruence.
Qed.

Lemma all_rejected_no_operations (fs : list File.t) :
  Forall (fun r => Result.success r = false) (fst (process_files fs)) ->
  snd (process_files fs) = [].
Proof.
  rewrite process_files_flat. cbn [fst snd]. intros H.
  apply length_zero_iff_nil. rewrite operations_count.
  induction H as [|r rs Hr _ IH]; [reflexivity|].
  cbn [filter]. now rewrite Hr.
Qed.

Lemma operations_shape (fs : list File.t) :
  Forall (fun op => operation op = js "addOrUpdate"
                    /\ encoding op = js "base64")
         (snd (process_files fs)).
Proof.
  rewrite process_files_flat. cbn [snd].
  apply Forall_flat_map, Forall_forall. intros f _.
  unfold file_operations.
  destruct (file_verdict f) as [H | [[H1 H2] | [H1 (s & H2 & H3)]]].
  - rewrite file_oversize by assumption. constructor.
  - rewrite file_blank_name by assumption. constructor.
  - rewrite (file_accepted f H1 H2 H3). repeat constructor.
Qed.

(** The two calls of repository mode, written out. *)
Lemma repository_mode_calls (req : Request) (net : Network) :
  dispatches req -> truthy (spaceId req) = false ->
  exists owner name,
    username req = Some owner /\ repo req = Some name
    /\ fst (run (proxy_upload JSON_parse req) net 0) =
       [{| url := js "https://huggingface.co/api/repos/create";
           http_method := js "POST";
           headers := request_headers req;
           body := CreateRepoBody (Some name) false |};
        {| url := js "https://huggingface.co/api/repos/"
                    ++ (owner ++ js "/" ++ name) ++ js "/commit/main";
           http_method := js "POST";
           headers := request_headers req;
           body :=
             let operations := snd (process_files (elements (files req))) in
             RepoCommitBody operations
               (js "Upload de " ++ Number_toString (Array_length operations)
                  ++ js " arquivo(s) via Visual Editor")
               (js "Adicionados/atualizados os seguintes arquivos:" ++ [10]
                  ++ join [10]
                       (map (fun op => js "- " ++ path op) operations)) |}].
Proof.
  intros Hd Hs.
  destruct (dispatches_fields Hd)
    as (tok & owner & name & fs & Ht & Hu & Hr & Hf & _).
  exists owner, name. split; [assumption|]. split; [assumption|].
  rewrite (run_repository_mode net Hd Hs). cbn [fst].
  unfold create_call, commit_call, repository_target, upload_title.
  cbn [fst snd]. rewrite Hu, Hr. reflexivity.
Qed.

(** A request whose body [multer] parsed: the answer and the calls are
    those of the handler past its first two statements. *)
Lemma run_handler_parsed (b : Fields) (fs : option (list File.t))
      (net : Network) :
  run (proxy_upload_handler JSON_parse {| req_body := Some b; req_files := fs |})
      net 0 =
  (fst (run (proxy_upload JSON_parse (request_of b fs)) net 0),
   Sent (snd (run (proxy_upload JSON_parse (request_of b fs)) net 0))).
Proof.
  unfold proxy_upload_handler. cbn [req_body req_files].
  rewrite run_bind. cbn [run fst snd]. now rewrite app_nil_r.
Qed.

(** C5 (where the code departs from it).  When the file list is absent
    the handler does not answer 400.  [req.files] is undefined only for a
    request that is not multipart, and then [req.body] is undefined too:
    the destructuring in the first statement of the handler throws, before
    the parameter check and outside the [try], so that no answer is sent.
    No outbound call is made either. *)
Theorem undefined_body_is_not_answered (r : ExpressRequest) (net : Network) :
  req_body r = None ->
  run (proxy_upload_handler JSON_parse r) net 0 = ([], Threw JSONValue)
  /\ forall resp,
       snd (run (proxy_upload_handler JSON_parse r) net 0) <> Sent resp.
Proof.
  intros H. unfold proxy_upload_handler. rewrite H. cbn [run snd].
  split; [reflexivity | discriminate].
Qed.

(** C6.  When files were supplied and the validation rejected every one
    of them, the answer is status 400 with [success = false], no outbound
    call is made, and the answer carries the non-empty list of rejected
    outcomes; the missing-parameter answer carries no such list. *)
Theorem all_files_rejected (req : Request) (net : Network)
        (fs : list File.t) :
  missing_parameters req = false ->
  files req = Some fs ->
  Forall (fun r => Result.success r = false) (fst (process_files fs)) ->
  let results := fst (process_files fs) in
  let resp := snd (run (proxy_upload JSON_parse req) net 0) in
  fst (run (proxy_upload JSON_parse req) net 0) = []
  /\ statusCode resp = 400%Z
  /\ body_success (json resp) = Some false
  /\ body_results (json resp) = Some results
  /\ body_error (json resp) = None
  /\ results <> []
  /\ List.length results = List.length fs
  /\ (forall req', missing_parameters req' = true ->
        body_results
          (json (snd (run (proxy_upload JSON_parse req') net 0))) = None
        /\ body_error
             (json (snd (run (proxy_upload JSON_parse req') net 0)))
           <> None).
Proof.
  intros Hm Hf Hall. cbv zeta.
  assert (snd (process_files (elements (files req))) = []) as Ho
      by (rewrite Hf; now apply all_rejected_no_operations).
  rewrite (run_no_valid_files req net 0 Hm Ho), Hf.
  cbn [fst snd statusCode json body_success body_results body_error elements].
  assert (List.length (fst (process_files fs)) = List.length fs) as Hl
      by (rewrite process_files_flat; apply results_length).
  repeat split; try assumption.
  - intros E. rewrite E in Hl.
    unfold missing_parameters in Hm. rewrite Hf in Hm.
    repeat (apply orb_false_iff in Hm; destruct Hm as [Hm ?]).
    destruct fs; [discriminate | discriminate Hl].
  - rewrite (run_missing_parameters req' net 0 H). reflexivity.
  - rewrite (run_missing_parameters req' net 0 H). discriminate.
Qed.

(** C2 (as amended).  For every request that reaches the dispatcher
    and whose [spaceId] is present and not the empty string, exactly one
    outbound call is made: the commit to
    [https://huggingface.co/api/spaces/{spaceId}/commit/main] with the
    payload [{files: [{path, content, encoding}], summary}].  No call goes
    to the repository-create endpoint. *)
Theorem space_mode_dispatch (req : Request) (net : Network)
        (sid : jsstring) :
  dispatches req ->
  spaceId req = Some sid -> sid <> [] ->
  let operations := snd (process_files (elements (files req))) in
  let calls := fst (run (proxy_upload JSON_parse req) net 0) in
  calls =
    [{| url := js "https://huggingface.co/api/spaces/" ++ sid
                 ++ js "/commit/main";
        http_method := js "POST";
        headers := request_headers req;
        body :=
          SpaceCommitBody
            (map (fun op => {| sf_path := path op;
                               sf_content := content op;
                               sf_encoding := js "base64" |}) operations)
            (js "Upload de " ++ Number_toString (Array_length operations)
               ++ js " arquivo(s) via Visual Editor") |}]
  /\ (forall c, In c calls ->
                url c <> js "https://huggingface.co/api/repos/create").
Proof.
  intros Hd Hs Hne. cbv zeta.
  assert (truthy (spaceId req) = true) as Ht
      by (rewrite Hs; destruct sid; [contradiction | reflexivity]).
  rewrite (run_space_mode net Hd Ht). cbn [fst].
  unfold commit_call, space_target, upload_title. cbn [fst snd].
  rewrite Hs. cbn [template]. split; [reflexivity|].
  intros c [<- | []]. cbn [url]. intros E. vm_compute in E. discriminate.
Qed.

(** C3.  For every request that reaches the dispatcher and has no
    [spaceId], the call to [/api/repos/create] is made first and the
    commit to [https://huggingface.co/api/repos/{owner}/{repo}/commit/main]
    second, with the payload [{operations: [{operation: "addOrUpdate",
    path, content, encoding}], commit_title, commit_message}].  This holds
    for every network, so for a provisioning answer 200, 409, any other
    status, and a failed call alike; and the outcome of the whole request
    does not depend on what the provisioning call returned. *)
Theorem repository_mode_dispatch (req : Request) (net : Network) :
  dispatches req ->
  spaceId req = None ->
  let operations := snd (process_files (elements (files req))) in
  exists owner name,
    username req = Some owner /\ repo req = Some name
    /\ fst (run (proxy_upload JSON_parse req) net 0) =
       [{| url := js "https://huggingface.co/api/repos/create";
           http_method := js "POST";
           headers := request_headers req;
           body := CreateRepoBody (Some name) false |};
        {| url := js "https://huggingface.co/api/repos/"
                    ++ (owner ++ js "/" ++ name) ++ js "/commit/main";
           http_method := js "POST";
           headers := request_headers req;
           body :=
             RepoCommitBody operations
               (js "Upload de " ++ Number_toString (Array_length operations)
                  ++ js " arquivo(s) via Visual Editor")
               (js "Adicionados/atualizados os seguintes arquivos:" ++ [10]
                  ++ join [10]
                       (map (fun op => js "- " ++ path op) operations)) |}]
    /\ Forall (fun op => operation op = js "addOrUpdate"
                         /\ encoding op = js "base64") operations
    /\ (forall net' : Network,
          (forall c, net' 1%nat c = net 1%nat c) ->
          run (proxy_upload JSON_parse req) net' 0
          = run (proxy_upload JSON_parse req) net 0).
Proof.
  intros Hd Hs. cbv zeta.
  assert (truthy (spaceId req) = false) as Ht by (now rewrite Hs).
  destruct (repository_mode_calls net Hd Ht) as (owner & name & Hu & Hr & Hc).
  exists owner, name. repeat split; try assumption.
  - apply operations_shape.
  - intros net' Hagree.
    rewrite (run_repository_mode net' Hd Ht), (run_repository_mode net Hd Ht).
    cbv zeta. now rewrite Hagree.
Qed.

(** C4.  The commit call is the last outbound call of a dispatched
    request.  When it returns a status outside the success
    range, the caller receives exactly that status, [success = false] and
    the message ["Erro no commit (<status>): <raw body>"].  When the
    status is in the success range 200-299, the caller receives status
    200, [success = true] and the message
    ["<successCount>/<file count> arquivos enviados com sucesso"], where
    [successCount] counts the outcomes with [success = true]. *)
Theorem commit_status_pass_through (req : Request) (net : Network)
        (r : HttpResponse) (responseText : jsstring) :
  dispatches req ->
  commit_outcome req net = FetchResolved r ->
  text r = inr responseText ->
  let results := fst (process_files (elements (files req))) in
  let resp := snd (run (proxy_upload JSON_parse req) net 0) in
  nth_error (fst (run (proxy_upload JSON_parse req) net 0))
            (commit_index req) = Some (the_commit_call req)
  /\ List.length (fst (run (proxy_upload JSON_parse req) net 0))
     = S (commit_index req)
  /\ ((status r < 200 \/ 300 <= status r)%Z ->
      statusCode resp = status r
      /\ body_success (json resp) = Some false
      /\ body_message (json resp)
         = Some (js "Erro no commit (" ++ Number_toString (status r)
                   ++ js "): " ++ responseText))
  /\ ((200 <= status r < 300)%Z ->
      statusCode resp = 200%Z
      /\ body_success (json resp) = Some true
      /\ body_results (json resp) = Some results
      /\ body_message (json resp)
         = Some (Number_toString
                   (Array_length (filter Result.success results))
                   ++ js "/"
                   ++ Number_toString (Array_length (elements (files req)))
                   ++ js " arquivos enviados com sucesso")).
Proof.
  intros Hd Ho Ht. cbv zeta.
  destruct (run_dispatched net Hd) as (Hcall & Hlast & Hresp).
  split; [exact Hcall|]. split; [exact Hlast|].
  rewrite Hresp, Ho. unfold commit_response. rewrite Ht.
  split; intros Hrange.
  - assert (ok r = false) as ->
        by (unfold ok; apply andb_false_iff;
            destruct Hrange; [left; apply Z.leb_gt | right; apply Z.ltb_ge];
            lia).
    repeat split.
  - assert (ok r = true) as ->
        by (unfold ok; apply andb_true_iff;
            split; [apply Z.leb_le | apply Z.ltb_lt]; lia).
    repeat split.
Qed.

(** C9.  For every request that passes the missing-parameter check, the
    file loop produces exactly one outcome per input file, in the order
    of the input files, and the number of write operations, which is the
    [operationsCount] of the answer, equals the number of outcomes with
    [success = true]. *)
Theorem outcomes_follow_files (req : Request) (net : Network)
        (fs : list File.t) :
  missing_parameters req = false ->
  files req = Some fs ->
  let results := fst (process_files fs) in
  let operations := snd (process_files fs) in
  let resp := snd (run (proxy_upload JSON_parse req) net 0) in
  Forall2 (fun f r => file_result f = [r]) fs results
  /\ List.length results = List.length fs
  /\ List.length operations
     = List.length (filter Result.success results)
  /\ (forall rs, body_results (json resp) = Some rs -> rs = results)
  /\ (forall n, body_operationsCount (json resp) = Some n ->
                n = Array_length (filter Result.success results)).
Proof.
  intros Hm Hf. cbv zeta.
  assert (List.length (snd (process_files fs))
          = List.length (filter Result.success (fst (process_files fs))))
    as Hcount
      by (rewrite process_files_flat; apply operations_count).
  split; [rewrite process_files_flat; apply results_in_order|].
  split; [rewrite process_files_flat; apply results_length|].
  split; [exact Hcount|].
  destruct (snd (process_files fs)) as [|op ops] eqn:Eo.
  - assert (snd (process_files (elements (files req))) = []) as Ho
        by (now rewrite Hf).
    rewrite (run_no_valid_files req net 0 Hm Ho), Hf.
    cbn [snd json body_results body_operationsCount elements].
    split; intros; congruence.
  - assert (dispatches req) as Hd
        by (split; [assumption | rewrite Hf; cbn [elements]; congruence]).
    destruct (run_dispatched net Hd) as (_ & _ & ->).
    destruct (commit_response_fields req
                (fst (process_files (elements (files req))))
                (snd (process_files (elements (files req))))
                (url (the_commit_call req)) (commit_outcome req net))
      as (_ & Hrs & Hn).
    rewrite Hf in *. cbn [elements] in *. split; [exact Hrs|].
    intros n E. rewrite (Hn n E), Eo.
    unfold Array_length. now rewrite <- Hcount.
Qed.

(** C10.  A request that reaches the dispatcher with [spaceId] present
    but equal to the empty string is handled in repository mode: the
    provisioning call is made, the commit goes to the repository endpoint
    with the repository payload, and the [target] of the answer is
    ["repository"]. *)
Theorem empty_spaceId_is_repository (req : Request) (net : Network) :
  dispatches req ->
  spaceId req = Some [] ->
  let operations := snd (process_files (elements (files req))) in
  exists owner name,
    username req = Some owner /\ repo req = Some name
    /\ fst (run (proxy_upload JSON_parse req) net 0) =
       [{| url := js "https://huggingface.co/api/repos/create";
           http_method := js "POST";
           headers := request_headers req;
           body := CreateRepoBody (Some name) false |};
        {| url := js "https://huggingface.co/api/repos/"
                    ++ (owner ++ js "/" ++ name) ++ js "/commit/main";
           http_method := js "POST";
           headers := request_headers req;
           body :=
             RepoCommitBody operations
               (js "Upload de " ++ Number_toString (Array_length operations)
                  ++ js " arquivo(s) via Visual Editor")
               (js "Adicionados/atualizados os seguintes arquivos:" ++ [10]
                  ++ join [10]
                       (map (fun op => js "- " ++ path op) operations)) |}]
    /\ body_target (json (snd (run (proxy_upload JSON_parse req) net 0)))
       = Some (js "repository").
Proof.
  intros Hd Hs. cbv zeta.
  assert (truthy (spaceId req) = false) as Ht by (now rewrite Hs).
  destruct (repository_mode_calls net Hd Ht) as (owner & name & Hu & Hr & Hc).
  exists owner, name. repeat split; try assumption.
  destruct (run_dispatched net Hd) as (_ & _ & ->).
  destruct (commit_response_fields req
              (fst (process_files (elements (files req))))
              (snd (process_files (elements (files req))))
              (url (the_commit_call req)) (commit_outcome req net))
    as (-> & _).
  unfold target_of. now rewrite Ht.
Qed.

End HandlerFacts.

(* ================================================================== *)
(** ** The statements at concrete requests *)

Lemma oversize_well_formed :
  File.size oversize = Z.of_nat (List.length (File.buffer oversize))
  /\ File.size oversize_blank
     = Z.of_nat (List.length (File.buffer oversize_blank)).
Proof.
  unfold oversize, oversize_blank. cbn [File.size File.buffer].
  rewrite repeat_length, Z2Nat.id by lia. split; reflexivity.
Qed.

Lemma upload_readme_dispatches (space : option jsstring) :
  dispatches (upload space [readme]).
Proof.
  split; [reflexivity|]. vm_compute. discriminate.
Qed.

(** The end-to-end example of the specification: one file [readme.txt]
    holding ["hi"], no [spaceId], remote answer 200. *)
Example end_to_end_repository :
  run (proxy_upload not_json (upload None [readme])) net_ok 0
  = ([create_call (upload None [readme]);
      {| url := js "https://huggingface.co/api/repos/alice/demo/commit/main";
         http_method := js "POST";
         headers := request_headers (upload None [readme]);
         body := RepoCommitBody
                   [{| operation := js "addOrUpdate";
                       path := js "readme.txt";
                       content := js "aGk=";
                       encoding := js "base64" |}]
                   (js "Upload de 1 arquivo(s) via Visual Editor")
                   (js "Adicionados/atualizados os seguintes arquivos:"
                      ++ [10] ++ js "- readme.txt") |}],
     {| statusCode := 200;
        json := CommitSuccessBody true
                  (js "1/1 arquivos enviados com sucesso")
                  [Result.mk (Some (js "readme.txt")) true None
                             (Some (js "commit")) (Some (js "base64"))
                             (Some 2%Z) (Some 4%Z)]
                  (js "OK") None (js "repository")
                  (js "https://huggingface.co/api/repos/alice/demo/commit/main")
                  1 |}).
Proof. vm_compute. reflexivity. Qed.

(** The second end-to-end example of the specification: the same upload
    with a file of 104,857,601 bytes. *)
Example end_to_end_oversize :
  run (proxy_upload not_json (upload None [oversize])) net_ok 0
  = ([], {| statusCode := 400;
            json := NoValidFilesBody unit false
                      (js "Nenhum arquivo válido para upload")
                      [Result.mk (Some (js "big.bin")) false
                                 (Some (js "Arquivo muito grande (>100MB)"))
                                 None None None None] |}).
Proof.
  assert (loop_body ([], []) oversize
          = ([Result.mk (Some (js "big.bin")) false (Some too_large)
                        None None None None], [])) as E
      by (rewrite file_oversize;
          [reflexivity | unfold oversize; cbn [File.size]; lia]).
  rewrite run_no_valid_files.
  - cbn [upload files elements process_files fold_left].
    rewrite E. reflexivity.
  - reflexivity.
  - cbn [upload files elements process_files fold_left].
    rewrite E. reflexivity.
Qed.

(** The third one: [spaceId = "org/demo-space"] with one valid file. *)
Example end_to_end_space :
  fst (run (proxy_upload not_json
              (upload (Some (js "org/demo-space")) [readme])) net_ok 0)
  = [{| url := js "https://huggingface.co/api/spaces/org/demo-space/commit/main";
        http_method := js "POST";
        headers := [(js "Authorization", js "Bearer hf_token");
                    (js "Content-Type", js "application/json");
                    (js "User-Agent", js "HF-Visual-Editor/1.0")];
        body := SpaceCommitBody
                  [{| sf_path := js "readme.txt";
                      sf_content := js "aGk=";
                      sf_encoding := js "base64" |}]
                  (js "Upload de 1 arquivo(s) via Visual Editor") |}].
Proof. vm_compute. reflexivity. Qed.

(** The round trip on the sequence of all 256 byte values. *)
Example round_trip_all_bytes :
  Base64.decode (Base64.encode Base64.all_bytes) = Some Base64.all_bytes.
Proof. vm_compute. reflexivity. Qed.

(** Witness of C1: a batch of [readme] followed by the oversize file. *)
Lemma size_limit_exact_witness :
  (104857601 <= File.size oversize)%Z
  /\ snd (process_files ([readme] ++ oversize :: []))
     = snd (process_files ([readme] ++ [])).
Proof.
  assert (104857601 <= File.size oversize)%Z as Hbig
      by (unfold oversize; cbn [File.size]; lia).
  split; [exact Hbig|].
  destruct (size_limit_exact [readme] [] oversize)
    as (r & _ & _ & _ & Hover & _).
  destruct (Hover Hbig) as (_ & _ & _ & Hskip). exact Hskip.
Defined.

(** Counterexample to C7 as stated: a file whose name is blank and whose
    content is one byte over the limit is rejected, but with the oversize
    reason, because the size guard comes first. *)
Lemma blank_name_oversize_reason :
  trim (the (File.originalname oversize_blank)) = []
  /\ File.size oversize_blank
     = Z.of_nat (List.length (File.buffer oversize_blank))
  /\ file_result oversize_blank
     = [Result.mk (Some (js "   ")) false (Some too_large)
                  None None None None]
  /\ ~ (exists r, file_result oversize_blank = [r]
                  /\ Result.error r = Some invalid_name).
Proof.
  assert (file_result oversize_blank
          = [Result.mk (Some (js "   ")) false (Some too_large)
                       None None None None]) as E.
  { unfold file_result. rewrite file_oversize; [reflexivity|].
    unfold oversize_blank; cbn [File.size]; lia. }
  split; [reflexivity|]. split; [apply oversize_well_formed|].
  split; [exact E|].
  intros (r & Hr & He). rewrite E in Hr. injection Hr as <-.
  cbn [Result.error] in He. vm_compute in He. discriminate.
Qed.

(** Witness of C7 as amended: the blank name on a two-byte file. *)
Lemma blank_name_rejected_witness :
  (File.size blank_named <= 104857600)%Z
  /\ trim (the (File.originalname blank_named)) = []
  /\ exists r, file_result blank_named = [r]
               /\ Result.success r = false
               /\ Result.error r = Some invalid_name
               /\ file_operations blank_named = [].
Proof.
  assert (File.size blank_named <= 104857600)%Z as Hs
      by (unfold blank_named; cbn [File.size]; lia).
  split; [exact Hs|]. split; [reflexivity|].
  destruct (blank_name_rejected_and_operation_shape blank_named) as [H _].
  apply H; [exact Hs | right; reflexivity].
Defined.

(** Counterexample to C2 as stated: [spaceId] is present in the request,
    with the empty string as its value, and the request is provisioned and
    committed as a repository. *)
Lemma present_empty_spaceId_not_container :
  spaceId (upload (Some (js "")) [readme]) = Some []
  /\ dispatches (upload (Some (js "")) [readme])
  /\ map url (fst (run (proxy_upload not_json
                                     (upload (Some (js "")) [readme]))
                       net_ok 0))
     = [js "https://huggingface.co/api/repos/create";
        js "https://huggingface.co/api/repos/alice/demo/commit/main"].
Proof.
  split; [reflexivity|]. split; [apply upload_readme_dispatches|].
  vm_compute. reflexivity.
Qed.

(** Witness of C2 as amended: the container example of the
    specification, [spaceId = "org/demo-space"]. *)
Lemma space_mode_dispatch_witness :
  dispatches (upload (Some (js "org/demo-space")) [readme])
  /\ map url (fst (run (proxy_upload not_json
                          (upload (Some (js "org/demo-space")) [readme]))
                       net_ok 0))
     = [js "https://huggingface.co/api/spaces/org/demo-space/commit/main"].
Proof.
  pose proof (upload_readme_dispatches (Some (js "org/demo-space"))) as Hd.
  split; [exact Hd|].
  assert (js "org/demo-space" <> []) as Hne by (vm_compute; discriminate).
  destruct (@space_mode_dispatch unit not_json
              (upload (Some (js "org/demo-space")) [readme]) net_ok
              (js "org/demo-space") Hd eq_refl Hne) as [Hcalls _].
  rewrite Hcalls. reflexivity.
Defined.

(** Witness of C3: provisioning is answered 500 and the commit is sent
    all the same. *)
Lemma repository_mode_dispatch_witness :
  dispatches (upload None [readme])
  /\ spaceId (upload None [readme]) = None
  /\ map url (fst (run (proxy_upload not_json (upload None [readme]))
                       net_500_then_ok 0))
     = [js "https://huggingface.co/api/repos/create";
        js "https://huggingface.co/api/repos/alice/demo/commit/main"].
Proof.
  pose proof (upload_readme_dispatches None) as Hd.
  split; [exact Hd|]. split; [reflexivity|].
  destruct (@repository_mode_dispatch unit not_json
              (upload None [readme]) net_500_then_ok Hd eq_refl)
    as (owner & name & Hu & Hr & Hcalls & _).
  rewrite Hcalls. injection Hu as <-. injection Hr as <-. reflexivity.
Defined.

(** Witness of C4: the commit is answered 404. *)
Lemma commit_status_pass_through_witness :
  dispatches (upload None [readme])
  /\ commit_outcome (upload None [readme]) net_409_then_404
     = answers 404 "Not Found"
  /\ statusCode (snd (run (proxy_upload not_json (upload None [readme]))
                          net_409_then_404 0)) = 404%Z
  /\ body_message
       (json (snd (run (proxy_upload not_json (upload None [readme]))
                       net_409_then_404 0)))
     = Some (js "Erro no commit (404): Not Found").
Proof.
  pose proof (upload_readme_dispatches None) as Hd.
  split; [exact Hd|]. split; [reflexivity|].
  destruct (@commit_status_pass_through unit not_json
              (upload None [readme]) net_409_then_404
              {| status := 404; text := inr (js "Not Found") |}
              (js "Not Found") Hd eq_refl eq_refl)
    as (_ & _ & Hfail & _).
  destruct Hfail as (Hs & _ & Hm); [right; cbn [status]; lia|].
  split; [exact Hs|]. rewrite Hm. reflexivity.
Defined.

(** Witness of C5: the request without a multipart body. *)
Lemma undefined_body_is_not_answered_witness :
  req_files not_multipart = None
  /\ run (proxy_upload_handler not_json not_multipart) net_ok 0
     = ([], Threw unit).
Proof.
  split; [reflexivity|].
  destruct (@undefined_body_is_not_answered unit not_json not_multipart
              net_ok eq_refl) as [H _].
  exact H.
Defined.

(** Witness of C6: the only file has a blank name. *)
Lemma all_files_rejected_witness :
  fst (run (proxy_upload not_json (upload None [blank_named])) net_ok 0) = []
  /\ statusCode (snd (run (proxy_upload not_json (upload None [blank_named]))
                          net_ok 0)) = 400%Z.
Proof.
  assert (Forall (fun r => Result.success r = false)
                 (fst (process_files [blank_named]))) as Hall
      by (repeat constructor).
  destruct (@all_files_rejected unit not_json (upload None [blank_named])
              net_ok [blank_named] eq_refl eq_refl Hall)
    as (Hcalls & Hstatus & _).
  split; [exact Hcalls | exact Hstatus].
Defined.

(** Witness of C9: an accepted file between two rejected ones. *)
Lemma outcomes_follow_files_witness :
  List.length (fst (process_files [blank_named; readme; blank_named]))
  = 3%nat
  /\ List.length (snd (process_files [blank_named; readme; blank_named]))
     = List.length
         (filter Result.success
                 (fst (process_files [blank_named; readme; blank_named]))).
Proof.
  destruct (@outcomes_follow_files unit not_json
              (upload None [blank_named; readme; blank_named]) net_ok
              [blank_named; readme; blank_named] eq_refl eq_refl)
    as (_ & Hlen & Hcount & _).
  split; [exact Hlen | exact Hcount].
Defined.

(** Witness of C10: the request of the specification's example with
    [spaceId = ""]. *)
Lemma empty_spaceId_is_repository_witness :
  dispatches (upload (Some []) [readme])
  /\ body_target
       (json (snd (run (proxy_upload not_json (upload (Some []) [readme]))
                       net_ok 0)))
     = Some (js "repository").
Proof.
  pose proof (upload_readme_dispatches (Some [])) as Hd.
  split; [exact Hd|].
  destruct (@empty_spaceId_is_repository unit not_json
              (upload (Some []) [readme]) net_ok Hd eq_refl)
    as (owner & name & _ & _ & _ & Ht).
  exact Ht.
Defined.

(* ================================================================== *)
(** * Further properties *)

(** ** [trim] *)

Lemma trimStart_suffix (s : jsstring) : exists u, s = u ++ trimStart s.
Proof.
  induction s as [|c s [u IH]]; cbn [trimStart].
  - now exists [].
  - destruct (isWhiteSpace c).
    + exists (c :: u). cbn [app]. now rewrite <- IH.
    + now exists [].
Qed.

Lemma trimStart_head (s : jsstring) (c : jschar) :
  hd_error (trimStart s) = Some c -> isWhiteSpace c = false.
Proof.
  induction s as [|d s IH]; cbn [trimStart]; [discriminate|].
  destruct (isWhiteSpace d) eqn:E; [exact IH|].
  cbn [hd_error]. intros H. injection H as <-. exact E.
Qed.

Lemma trimEnd_prefix (s : jsstring) : exists u, s = trimEnd s ++ u.
Proof.
  destruct (trimStart_suffix (rev s)) as [u E].
  exists (rev u). unfold trimEnd.
  rewrite <- rev_app_distr, <- E. now rewrite rev_involutive.
Qed.

Lemma trim_trimmed (s : jsstring) : trimmed (trim s).
Proof.
  unfold trimmed, trim. split; intros c H.
  - destruct (trimEnd_prefix (trimStart s)) as [u E].
    apply (trimStart_head s). rewrite E.
    destruct (trimEnd (trimStart s)); [discriminate | exact H].
  - unfold trimEnd in H. rewrite rev_involutive in H.
    now apply trimStart_head in H.
Qed.

(* ================================================================== *)
(** ** The base64 text of a buffer *)

Lemma encode_length (bs : list byte) :
  List.length (Base64.encode bs) = (4 * ((List.length bs + 2) / 3))%nat.
Proof.
  induction bs as [| x | x y | x y z rest IH] using Base64Facts.list_ind3;
    try reflexivity.
  cbn [Base64.encode List.length]. rewrite IH.
  replace (S (S (S (List.length rest))) + 2)%nat
    with (1 * 3 + (List.length rest + 2))%nat by lia.
  rewrite Nat.div_add_l by lia. lia.
Qed.

Lemma table_base64_char (n : N) : base64_char (Base64.table n).
Proof.
  unfold base64_char, Base64.table.
  destruct (nth_in_or_default (N.to_nat n) Base64.alphabet Base64.pad);
    [now left | now right].
Qed.

Lemma encode_base64_chars (bs : list byte) :
  Forall base64_char (Base64.encode bs).
Proof.
  induction bs as [| x | x y | x y z rest IH] using Base64Facts.list_ind3;
    cbn [Base64.encode];
    repeat (constructor;
            try apply table_base64_char; try (right; reflexivity));
    assumption.
Qed.

(* ================================================================== *)
(** ** The file loop, file by file *)

Lemma passes_validation_accepted (f : File.t) :
  passes_validation f = true ->
  loop_body ([], []) f =
  ([Result.mk (File.originalname f) true None
              (Some (js "commit")) (Some (js "base64"))
              (Some (File.size f))
              (Some (Z.of_nat
                       (List.length (Base64.encode (File.buffer f)))))],
   [operation_of f]).
Proof.
  unfold passes_validation, loop_body, operation_of. intros H.
  apply andb_prop in H. destruct H as [H1 H2].
  apply negb_true_iff in H1, H2. now rewrite H1, H2.
Qed.

Lemma passes_validation_rejected (f : File.t) :
  passes_validation f = false ->
  exists r, loop_body ([], []) f = ([r], [])
            /\ Result.success r = false.
Proof.
  unfold passes_validation, loop_body. intros H.
  destruct (File.size f >? 100 * 1024 * 1024)%Z.
  - eexists. split; reflexivity.
  - destruct (negb (truthy (File.originalname f))
              || jsstring_eqb (trim (the (File.originalname f))) (js "")).
    + eexists. split; reflexivity.
    + discriminate.
Qed.

Lemma passes_validation_name (f : File.t) :
  passes_validation f = true ->
  exists s, File.originalname f = Some s /\ trim s <> []
            /\ (File.size f <= 104857600)%Z.
Proof.
  unfold passes_validation. rewrite size_limit_value. intros H.
  apply andb_prop in H. destruct H as [H1 H2].
  apply negb_true_iff in H1, H2. apply orb_false_iff in H2.
  destruct H2 as [H2 H3]. apply negb_false_iff in H2.
  destruct (File.originalname f) as [s|]; [|discriminate].
  exists s. split; [reflexivity|]. split.
  - intros E. cbn [the] in H3. rewrite E in H3. discriminate.
  - rewrite Z.gtb_ltb in H1. apply Z.ltb_ge in H1. exact H1.
Qed.

Lemma file_operations_filter (fs : list File.t) :
  flat_map file_operations fs = map operation_of (filter passes_validation fs).
Proof.
  induction fs as [|f fs IH]; [reflexivity|].
  cbn [flat_map filter]. unfold file_operations at 1.
  destruct (passes_validation f) eqn:E.
  - rewrite (passes_validation_accepted f E). cbn [snd map app].
    now rewrite IH.
  - destruct (passes_validation_rejected f E) as (r & -> & _).
    cbn [snd app]. exact IH.
Qed.

Lemma file_results_success (fs : list File.t) :
  map Result.success (flat_map file_result fs) = map passes_validation fs.
Proof.
  induction fs as [|f fs IH]; [reflexivity|].
  cbn [flat_map map]. rewrite map_app, IH. unfold file_result.
  destruct (passes_validation f) eqn:E.
  - now rewrite (passes_validation_accepted f E).
  - destruct (passes_validation_rejected f E) as (r & -> & Hr).
    cbn [fst map app]. now rewrite Hr.
Qed.

(** X1.  Files are handled independently of one another: the outcomes and
    the operations of a batch are those of its first part followed by
    those of its second part, so no file changes the verdict on, or the
    operation of, another file. *)
Theorem process_files_app (fs1 fs2 : list File.t) :
  process_files (fs1 ++ fs2) =
  (fst (process_files fs1) ++ fst (process_files fs2),
   snd (process_files fs1) ++ snd (process_files fs2)).
Proof.
  rewrite !process_files_flat. cbn [fst snd]. now rewrite !flat_map_app.
Qed.

(** X2.  The operations of a batch are the operations of the files that
    get past both guards, in the order of the input and with nothing
    merged or dropped (two files with the same name give two operations
    with the same path); and the [success] flags of the outcomes are, in
    order, the verdicts on the files. *)
Theorem operations_are_accepted_files (fs : list File.t) :
  snd (process_files fs) = map operation_of (filter passes_validation fs)
  /\ map Result.success (fst (process_files fs)) = map passes_validation fs.
Proof.
  rewrite process_files_flat. cbn [fst snd]. split.
  - apply file_operations_filter.
  - apply file_results_success.
Qed.

(** X3.  Every operation of a batch has a non-empty [path] with no white
    space at its start or at its end. *)
Theorem operation_paths_trimmed (fs : list File.t) :
  Forall (fun op => path op <> [] /\ trimmed (path op))
         (snd (process_files fs)).
Proof.
  rewrite process_files_flat. cbn [snd]. rewrite file_operations_filter.
  apply Forall_map, Forall_forall. intros f Hin.
  apply filter_In in Hin. destruct Hin as [_ Hp].
  destruct (passes_validation_name f Hp) as (s & Hs & Ht & _).
  unfold operation_of. cbn [path]. rewrite Hs. cbn [the].
  split; [exact Ht | apply trim_trimmed].
Qed.

(** X4.  For an accepted file whose [size] is the length of its buffer,
    the outcome reports that [size] and a [contentLength] of
    [4 * ceil(size / 3)], the length of the base64 text. *)
Theorem content_length_of_accepted (f : File.t) (r : Result.t) :
  File.size f = Z.of_nat (List.length (File.buffer f)) ->
  file_result f = [r] ->
  Result.success r = true ->
  Result.size r = Some (File.size f)
  /\ Result.contentLength r = Some (4 * ((File.size f + 2) / 3))%Z
  /\ exists op, file_operations f = [op]
                /\ Z.of_nat (List.length (content op))
                   = (4 * ((File.size f + 2) / 3))%Z.
Proof.
  intros Hsize Hr Hs. unfold file_result, file_operations in *.
  assert (Z.of_nat (List.length (Base64.encode (File.buffer f)))
          = (4 * ((File.size f + 2) / 3))%Z) as Hlen.
  { rewrite encode_length, Hsize.
    rewrite Nat2Z.inj_mul, Nat2Z.inj_div, Nat2Z.inj_add. reflexivity. }
  destruct (passes_validation f) eqn:E.
  - rewrite (passes_validation_accepted f E) in *. cbn [fst snd] in *.
    injection Hr as <-. cbn [Result.size Result.contentLength].
    rewrite Hlen. repeat split.
    exists (operation_of f). split; [reflexivity | exact Hlen].
  - destruct (passes_validation_rejected f E) as (r' & Er & Hr').
    rewrite Er in Hr. cbn [fst] in Hr. injection Hr as <-. congruence.
Qed.

(** X5.  The [content] of every operation is base64 text: its characters
    are among the 64 of the alphabet and the padding ['='], its length is
    a multiple of four, and its [encoding] says ["base64"]. *)
Theorem operation_content_is_base64_text (fs : list File.t) :
  Forall (fun op => Forall base64_char (content op)
                    /\ (List.length (content op) mod 4 = 0)%nat
                    /\ encoding op = js "base64")
         (snd (process_files fs)).
Proof.
  rewrite process_files_flat. cbn [snd]. rewrite file_operations_filter.
  apply Forall_map, Forall_forall. intros f _.
  unfold operation_of. cbn [content encoding]. split; [|split].
  - apply encode_base64_chars.
  - rewrite encode_length, Nat.mul_comm. apply Nat.Div0.mod_mul.
  - reflexivity.
Qed.

Lemma decode_encode (bs : list byte) :
  Base64.decode (Base64.encode bs) = Some bs.
Proof.
  induction bs as [| x | x y | x y z rest IH] using Base64Facts.list_ind3.
  - reflexivity.
  - apply Base64Facts.decode_encode_1.
  - apply Base64Facts.decode_encode_2.
  - now apply Base64Facts.decode_encode_3.
Qed.

(** X14.  What is put in the batch can be read back: decoding the
    [content] of the operations, in order, gives exactly the buffers of
    the files that got past both guards, in the order of the upload. *)
Theorem batch_decodes_to_accepted_buffers (fs : list File.t) :
  map (fun op => Base64.decode (content op)) (snd (process_files fs))
  = map (fun f => Some (File.buffer f)) (filter passes_validation fs).
Proof.
  rewrite process_files_flat. cbn [snd]. rewrite file_operations_filter.
  rewrite map_map. apply map_ext. intros f.
  unfold operation_of. cbn [content]. apply decode_encode.
Qed.

(** X6.  Within the size limit, a file with no name or with the empty
    name is listed in the outcomes as ["arquivo-sem-nome"], while a file
    whose name is only white space is listed under that name; both are
    rejected with the invalid-name reason. *)
Theorem unnamed_file_label (f : File.t) :
  (File.size f <= 104857600)%Z ->
  (absent_or_empty (File.originalname f) ->
   file_result f =
   [Result.mk (Some (js "arquivo-sem-nome")) false (Some invalid_name)
              None None None None])
  /\ (forall s, File.originalname f = Some s -> s <> [] -> trim s = [] ->
      file_result f =
      [Result.mk (Some s) false (Some invalid_name) None None None None]).
Proof.
  intros Hs. unfold file_result. split.
  - intros [E | E].
    + rewrite file_blank_name by (try assumption; now left).
      now rewrite E.
    + rewrite file_blank_name
        by (try assumption; right; now rewrite E).
      now rewrite E.
  - intros s E Hne Ht.
    rewrite file_blank_name by (try assumption; right; now rewrite E).
    rewrite E. destruct s; [contradiction | reflexivity].
Qed.

(* ================================================================== *)
(** ** The handler, over all requests *)

Section HandlerCases.

Variable JSONValue : Type.
Variable JSON_parse : jsstring -> option JSONValue.

Lemma falsy_absent_or_empty (v : option jsstring) :
  truthy v = false <-> absent_or_empty v.
Proof.
  unfold absent_or_empty. destruct v as [[|c s]|]; cbn [truthy]; split;
    intros H; try reflexivity; try discriminate; try tauto.
  destruct H; discriminate.
Qed.

Lemma missing_parameters_iff (req : Request) :
  missing_parameters req = true <->
  absent_or_empty (token req) \/ absent_or_empty (username req)
  \/ absent_or_empty (repo req)
  \/ files req = None \/ files req = Some [].
Proof.
  unfold missing_parameters.
  rewrite !orb_true_iff, !negb_true_iff, !falsy_absent_or_empty.
  rewrite Array_length_zero.
  destruct (files req) as [[|f fs]|]; cbn [defined elements];
    intuition (try discriminate; auto).
Qed.

Lemma some_operation_iff (fs : list File.t) :
  snd (process_files fs) <> [] <->
  exists f, In f fs /\ passes_validation f = true.
Proof.
  rewrite process_files_flat. cbn [snd]. rewrite file_operations_filter.
  split.
  - intros H. destruct (filter passes_validation fs) as [|f l] eqn:E;
      [now contradict H|].
    exists f. apply filter_In. rewrite E. now left.
  - intros (f & Hin & Hp) E.
    assert (In f (filter passes_validation fs)) as Hf
        by (apply filter_In; now split).
    destruct (filter passes_validation fs); [exact Hf | discriminate].
Qed.

(** The four ways a request can go. *)
Lemma run_cases (req : Request) (net : Network) :
  let results := fst (process_files (elements (files req))) in
  let operations := snd (process_files (elements (files req))) in
  (missing_parameters req = true
   /\ run (proxy_upload JSON_parse req) net 0 =
      ([], {| statusCode := 400;
              json := MissingParametersBody JSONValue
                        (js "token, username, repo e files são obrigatórios")
           |}))
  \/ (missing_parameters req = false /\ operations = []
      /\ run (proxy_upload JSON_parse req) net 0 =
         ([], {| statusCode := 400;
                 json := NoValidFilesBody JSONValue false
                           (js "Nenhum arquivo válido para upload") results
              |}))
  \/ (dispatches req /\ truthy (spaceId req) = true
      /\ run (proxy_upload JSON_parse req) net 0 =
         ([the_commit_call req],
          commit_response JSON_parse req results operations
                          (url (the_commit_call req))
                          (commit_outcome req net)))
  \/ (dispatches req /\ truthy (spaceId req) = false
      /\ run (proxy_upload JSON_parse req) net 0 =
         ([create_call req; the_commit_call req],
          commit_response JSON_parse req results operations
                          (url (the_commit_call req))
                          (commit_outcome req net))).
Proof.
  cbv zeta. destruct (missing_parameters req) eqn:Hm.
  - left. split; [reflexivity|]. now apply run_missing_parameters.
  - right.
    destruct (snd (process_files (elements (files req)))) as [|op ops] eqn:Ho.
    + left. split; [reflexivity|]. split; [reflexivity|].
      now apply run_no_valid_files.
    + right.
      assert (dispatches req) as Hd
          by (split; [assumption | rewrite Ho; discriminate]).
      unfold commit_outcome, the_commit_call, commit_index.
      destruct (truthy (spaceId req)) eqn:Hs; [left | right];
        (split; [exact Hd|]); (split; [reflexivity|]).
      * rewrite (run_space_mode JSON_parse net Hd Hs). cbv zeta.
        cbn [url commit_call fst snd]. rewrite Ho. reflexivity.
      * rewrite (run_repository_mode JSON_parse net Hd Hs). cbv zeta.
        cbn [url commit_call fst snd]. rewrite Ho. reflexivity.
Qed.

Lemma commit_response_no_error (req : Request) (results : list Result.t)
      (operations : list Operation) (commitUrl : jsstring)
      (o : FetchOutcome) :
  body_error
    (json (commit_response JSON_parse req results operations commitUrl o))
  = None.
Proof.
  unfold commit_response.
  destruct o as [e | r]; [|destruct (text r); [|destruct (ok r)]];
    reflexivity.
Qed.

(** X7.  For a multipart request, so with [req.body] and [req.files] set
    by [multer], the answer [{error: ...}] is given exactly when [token],
    [username] or [repo] is undefined or the empty string, or [files] is
    the empty array: an empty string counts as a missing parameter, and no
    other multipart request gets this answer.  It comes with status 400
    and without any outbound call. *)
Theorem error_answer_exactly (b : Fields) (fs : list File.t)
        (net : Network) :
  let r := {| req_body := Some b; req_files := Some fs |} in
  let missing :=
    absent_or_empty (field_token b) \/ absent_or_empty (field_username b)
    \/ absent_or_empty (field_repo b) \/ fs = [] in
  ((exists resp,
      snd (run (proxy_upload_handler JSON_parse r) net 0) = Sent resp
      /\ body_error (json resp)
         = Some (js "token, username, repo e files são obrigatórios"))
   <-> missing)
  /\ (missing ->
      run (proxy_upload_handler JSON_parse r) net 0 =
      ([], Sent {| statusCode := 400;
                   json := MissingParametersBody JSONValue
                             (js "token, username, repo e files são obrigatórios")
                |})).
Proof.
  cbv zeta. rewrite run_handler_parsed. cbn [snd].
  assert (missing_parameters (request_of b (Some fs)) = true <->
          absent_or_empty (field_token b) \/ absent_or_empty (field_username b)
          \/ absent_or_empty (field_repo b) \/ fs = []) as Hiff.
  { rewrite missing_parameters_iff. cbn [request_of token username repo files].
    intuition (try discriminate; try congruence). }
  rewrite <- Hiff.
  destruct (run_cases (request_of b (Some fs)) net)
    as [[Hm ->] | [(Hm & _ & ->) | [([Hm _] & _ & ->) | ([Hm _] & _ & ->)]]];
    cbn [fst snd]; rewrite Hm.
  - split; [|reflexivity]. split; [reflexivity|]. intros _.
    eexists. split; reflexivity.
  - split; [|discriminate]. split; [|discriminate].
    intros (resp & E & He). injection E as <-. discriminate.
  - split; [|discriminate]. split; [|discriminate].
    intros (resp & E & He). injection E as <-.
    rewrite commit_response_no_error in He. discriminate.
  - split; [|discriminate]. split; [|discriminate].
    intros (resp & E & He). injection E as <-.
    rewrite commit_response_no_error in He. discriminate.
Qed.

(** X8.  An outbound call is made exactly when the parameter check passes
    and at least one file gets past both guards. *)
Theorem calls_made_iff_a_file_is_accepted (req : Request) (net : Network) :
  fst (run (proxy_upload JSON_parse req) net 0) <> []
  <->
  missing_parameters req = false
  /\ exists f, In f (elements (files req)) /\ passes_validation f = true.
Proof.
  rewrite <- some_operation_iff.
  destruct (run_cases req net)
    as [[Hm ->] | [(Hm & Ho & ->) | [([Hm Ho] & _ & ->) | ([Hm Ho] & _ & ->)]]];
    cbn [fst]; rewrite Hm; split; intros H;
    try (split; [reflexivity | assumption]); try discriminate;
    try (now contradict H).
Qed.

(** X9.  Whatever the request and the network, the outbound calls are
    none, or the commit alone (container mode), or the provisioning call
    followed by the commit (repository mode): never more than two calls,
    never two commits, never a provisioning call after the commit. *)
Theorem calls_are_create_then_commit (req : Request) (net : Network) :
  let calls := fst (run (proxy_upload JSON_parse req) net 0) in
  (List.length calls <= 2)%nat
  /\ (calls = []
      \/ (truthy (spaceId req) = true /\ calls = [the_commit_call req])
      \/ (truthy (spaceId req) = false
          /\ calls = [create_call req; the_commit_call req])).
Proof.
  cbv zeta.
  destruct (run_cases req net)
    as [[_ ->] | [(_ & _ & ->) | [(_ & Hs & ->) | (_ & Hs & ->)]]];
    cbn [fst List.length]; (split; [lia|]); auto.
Qed.

(** X10.  Every outbound call is a POST that carries exactly the three
    headers [Authorization: Bearer <token>], [Content-Type:
    application/json] and [User-Agent: HF-Visual-Editor/1.0], with the
    non-empty token of the request. *)
Theorem every_call_is_an_authorized_post (req : Request) (net : Network) :
  Forall (fun c => http_method c = js "POST"
                   /\ exists tok, token req = Some tok /\ tok <> []
                                  /\ headers c = headers_with tok)
         (fst (run (proxy_upload JSON_parse req) net 0)).
Proof.
  assert (dispatches req ->
          forall c, c = create_call req \/ c = the_commit_call req ->
          http_method c = js "POST"
          /\ exists tok, token req = Some tok /\ tok <> []
                         /\ headers c = headers_with tok) as Hcall.
  { intros Hd c Hc.
    destruct (dispatches_fields Hd) as (tok & _ & _ & _ & Ht & _ & _ & _ & Hne & _).
    split; [destruct Hc as [-> | ->]; reflexivity|].
    exists tok. split; [exact Ht|]. split; [exact Hne|].
    destruct Hc as [-> | ->];
      unfold the_commit_call, commit_call, create_call;
      cbn [headers]; unfold request_headers; rewrite Ht; reflexivity. }
  destruct (run_cases req net)
    as [[_ ->] | [(_ & _ & ->) | [(Hd & _ & ->) | (Hd & _ & ->)]]];
    cbn [fst]; repeat constructor; apply Hcall; auto.
Qed.

(** X11.  When the commit call itself fails, by a rejected [fetch] or by
    a body that cannot be read, the caller receives status 500 with
    [success = false], the message ["Erro interno: <error message>"], the
    target of the request and the stack of the error; the commit was
    attempted once and is not retried. *)
Theorem commit_failure_is_internal_error (req : Request) (net : Network)
        (err : JsError) :
  dispatches req ->
  commit_outcome req net = FetchRejected err
  \/ (exists r, commit_outcome req net = FetchResolved r
                /\ text r = inl err) ->
  snd (run (proxy_upload JSON_parse req) net 0) =
  {| statusCode := 500;
     json := InternalErrorBody JSONValue false
               (js "Erro interno: " ++ err_message err)
               (if truthy (spaceId req) then js "space" else js "repository")
               (err_stack err) |}
  /\ List.length (fst (run (proxy_upload JSON_parse req) net 0))
     = S (commit_index req).
Proof.
  intros Hd Hfail.
  destruct (run_dispatched JSON_parse net Hd) as (_ & Hlen & ->).
  split; [|exact Hlen].
  unfold commit_response.
  destruct Hfail as [-> | (r & -> & ->)]; reflexivity.
Qed.

Lemma commit_response_200 (req : Request) (results : list Result.t)
      (operations : list Operation) (commitUrl : jsstring)
      (o : FetchOutcome) :
  let resp :=
    commit_response JSON_parse req results operations commitUrl o in
  (statusCode resp = 200%Z <-> body_success (json resp) = Some true)
  /\ (statusCode resp = 200%Z ->
      exists r, o = FetchResolved r /\ (200 <= status r < 300)%Z).
Proof.
  cbv zeta. unfold commit_response.
  destruct o as [e | r]; [|destruct (text r) as [e | responseText];
                           [|destruct (ok r) eqn:Hr]];
    cbn [internal_error statusCode json body_success].
  - split; [split|]; intros H; discriminate.
  - split; [split|]; intros H; discriminate.
  - split; [split; reflexivity|]. intros _. exists r. split; [reflexivity|].
    unfold ok in Hr. apply andb_prop in Hr. destruct Hr as [H1 H2].
    apply Z.leb_le in H1. apply Z.ltb_lt in H2. lia.
  - assert (status r <> 200%Z) as Hne
        by (intros E; unfold ok in Hr; rewrite E in Hr; discriminate).
    split; [split|]; intros H; try discriminate; contradiction.
Qed.

(** X12.  The caller receives status 200 exactly when the body says
    [success = true], and this happens only for a dispatched request
    whose commit call was answered with a status from 200 to 299. *)
Theorem status_200_iff_success (req : Request) (net : Network) :
  let resp := snd (run (proxy_upload JSON_parse req) net 0) in
  (statusCode resp = 200%Z <-> body_success (json resp) = Some true)
  /\ (statusCode resp = 200%Z ->
      dispatches req
      /\ exists r, commit_outcome req net = FetchResolved r
                   /\ (200 <= status r < 300)%Z).
Proof.
  cbv zeta.
  destruct (run_cases req net)
    as [[_ ->] | [(_ & _ & ->) | [(Hd & _ & ->) | (Hd & _ & ->)]]];
    cbn [snd].
  - cbn [statusCode json body_success].
    split; [split|]; intros H; discriminate.
  - cbn [statusCode json body_success].
    split; [split|]; intros H; discriminate.
  - destruct (commit_response_200 req
                (fst (process_files (elements (files req))))
                (snd (process_files (elements (files req))))
                (url (the_commit_call req)) (commit_outcome req net))
      as [Hiff Hr].
    split; [exact Hiff|]. intros H. split; [exact Hd | now apply Hr].
  - destruct (commit_response_200 req
                (fst (process_files (elements (files req))))
                (snd (process_files (elements (files req))))
                (url (the_commit_call req)) (commit_outcome req net))
      as [Hiff Hr].
    split; [exact Hiff|]. intros H. split; [exact Hd | now apply Hr].
Qed.



(** X13.  When the answer names a [commitUrl], that URL is the one the
    last outbound call was sent to, the [operationsCount] of the answer
    is the number of entries of the payload that call carried, and the
    [target] of the answer says which of the two payload shapes it was. *)
Theorem answer_reports_the_commit_sent (req : Request) (net : Network)
        (u : jsstring) :
  let calls := fst (run (proxy_upload JSON_parse req) net 0) in
  let resp := snd (run (proxy_upload JSON_parse req) net 0) in
  body_commitUrl (json resp) = Some u ->
  exists front c,
    calls = front ++ [c]
    /\ url c = u
    /\ payload_length (body c) = body_operationsCount (json resp)
    /\ match body c with
       | SpaceCommitBody _ _ => body_target (json resp) = Some (js "space")
       | RepoCommitBody _ _ _ =>
           body_target (json resp) = Some (js "repository")
       | CreateRepoBody _ _ => False
       end.
Proof.
  cbv zeta.
  assert (forall o,
            body_commitUrl
              (json (commit_response JSON_parse req
                       (fst (process_files (elements (files req))))
                       (snd (process_files (elements (files req))))
                       (url (the_commit_call req)) o)) = Some u ->
            url (the_commit_call req) = u
            /\ body_operationsCount
                 (json (commit_response JSON_parse req
                          (fst (process_files (elements (files req))))
                          (snd (process_files (elements (files req))))
                          (url (the_commit_call req)) o))
               = Some (Array_length
                         (snd (process_files (elements (files req)))))
            /\ body_target
                 (json (commit_response JSON_parse req
                          (fst (process_files (elements (files req))))
                          (snd (process_files (elements (files req))))
                          (url (the_commit_call req)) o))
               = Some (target_of req)) as Hresp.
  { intros o. unfold commit_response.
    destruct o as [e | r]; [|destruct (text r); [|destruct (ok r)]];
      cbn [internal_error json body_commitUrl body_operationsCount
           body_target];
      intros H; try discriminate; injection H as <-; repeat split. }
  destruct (run_cases req net)
    as [[_ ->] | [(_ & _ & ->) | [(Hd & Hs & ->) | (Hd & Hs & ->)]]];
    cbn [fst snd]; try (cbn [json body_commitUrl]; discriminate);
    intros H; destruct (Hresp _ H) as (Hu & -> & ->);
    [exists [] | exists [create_call req]];
    exists (the_commit_call req);
    (split; [reflexivity|]); (split; [exact Hu|]);
    unfold the_commit_call, commit_call, target_of; rewrite Hs;
    cbn [body snd space_target repository_target payload_length];
    (split; [|reflexivity]).
  - unfold Array_length. now rewrite length_map.
  - reflexivity.
Qed.

End HandlerCases.

(* ================================================================== *)
(** ** The further statements at concrete requests *)

(** Witness of X4: the two bytes of [readme] give four characters. *)
Lemma content_length_of_accepted_witness :
  Result.contentLength
    (Result.mk (Some (js "readme.txt")) true None
               (Some (js "commit")) (Some (js "base64"))
               (Some 2%Z) (Some 4%Z))
  = Some (4 * ((File.size readme + 2) / 3))%Z.
Proof.
  destruct (@content_length_of_accepted readme
              (Result.mk (Some (js "readme.txt")) true None
                         (Some (js "commit")) (Some (js "base64"))
                         (Some 2%Z) (Some 4%Z))
              eq_refl eq_refl eq_refl) as (_ & H & _).
  exact H.
Defined.

(** Witness of X6: a two-byte file whose name is the empty string. *)
Lemma unnamed_file_label_witness :
  file_result (File.mk (Some []) ["h"%byte; "i"%byte] 2) =
  [Result.mk (Some (js "arquivo-sem-nome")) false (Some invalid_name)
             None None None None].
Proof.
  assert (File.size (File.mk (Some []) ["h"%byte; "i"%byte] 2)
          <= 104857600)%Z as Hs by (cbn [File.size]; lia).
  destruct (@unnamed_file_label
              (File.mk (Some []) ["h"%byte; "i"%byte] 2) Hs) as [H _].
  apply H. right. reflexivity.
Defined.

(** Witness of X11: the remote host is down; the provisioning failure is
    passed over and the failure of the commit is answered 500. *)
Lemma commit_failure_is_internal_error_witness :
  dispatches (upload None [readme])
  /\ commit_outcome (upload None [readme]) net_down
     = FetchRejected connection_refused
  /\ statusCode (snd (run (proxy_upload not_json (upload None [readme]))
                          net_down 0)) = 500%Z
  /\ List.length (fst (run (proxy_upload not_json (upload None [readme]))
                           net_down 0)) = 2%nat.
Proof.
  pose proof (upload_readme_dispatches None) as Hd.
  split; [exact Hd|]. split; [reflexivity|].
  destruct (@commit_failure_is_internal_error unit not_json
              (upload None [readme]) net_down connection_refused
              Hd (or_introl eq_refl)) as [Hresp Hlen].
  split; [now rewrite Hresp | exact Hlen].
Defined.

(** Witness of X13: the container example, answered 200. *)
Lemma answer_reports_the_commit_sent_witness :
  body_commitUrl
    (json (snd (run (proxy_upload not_json
                       (upload (Some (js "org/demo-space")) [readme]))
                    net_ok 0)))
  = Some (js "https://huggingface.co/api/spaces/org/demo-space/commit/main")
  /\ exists front c,
       fst (run (proxy_upload not_json
                   (upload (Some (js "org/demo-space")) [readme]))
                net_ok 0) = front ++ [c]
       /\ url c
          = js "https://huggingface.co/api/spaces/org/demo-space/commit/main".
Proof.
  assert (body_commitUrl
            (json (snd (run (proxy_upload not_json
                               (upload (Some (js "org/demo-space")) [readme]))
                            net_ok 0)))
          = Some (js "https://huggingface.co/api/spaces/org/demo-space/commit/main"))
    as Hu by (vm_compute; reflexivity).
  split; [exact Hu|].
  destruct (@answer_reports_the_commit_sent unit not_json
              (upload (Some (js "org/demo-space")) [readme]) net_ok
              _ Hu) as (front & c & Hc & Hurl & _).
  exists front, c. split; [exact Hc | exact Hurl].
Defined.
